(** * ctapipe-hillas-reco: the event reconstruction tool

    A shallow embedding of [ctapipe/tools/hillas_reconstruction.py]
    (class [EventReconstructionHillas]) and the properties of its
    selection, reduction and aggregation logic.

    Conventions of the embedding.
    - numpy [float64] scalars are IEEE binary64 values, taken from the
      Standard Library's executable specification [spec_float]; numpy
      arrays are lists of them and boolean masks are lists of [bool].
    - astropy quantities are held as their binary64 value; angles that the
      selection compares (image moments, distance cuts) are in degrees,
      lengths in metres.
    - a Python dict is a [gmap]; [d[k]] on a missing key raises [KeyError].
    - the tool object [self] is the record [Tool], threaded through a state
      and exception monad; what is written before an exception is raised
      stays written.
    - the collaborators living in other modules (event source, calibrators,
      geometry inference, frame transforms, cleaning, dilation, moments,
      stereo fit, energy estimation, random sampling) are the fields of the
      class [Collaborators]; every call to one of them is recorded, in
      program order, in the call log of the tool. *)

From Stdlib Require Import ZArith List Bool.
From Stdlib Require Import Floats.SpecFloat.
From stdpp Require Import base option list gmap fin_maps strings.

Set Warnings "-clear-no-such-hyp".

Local Open Scope Z_scope.
Local Open Scope string_scope.
Local Open Scope list_scope.

(** ** Binary64 scalars *)

Module F64.
Definition prec : Z := 53.
Definition emax : Z := 1024.

Definition t : Type := spec_float.

(** conversion of a Python int (exact below 2^53) *)
Definition of_Z (z : Z) : t := binary_normalize prec emax z 0 false.

Definition zero : t := S754_zero false.
Definition add : t -> t -> t := SFadd prec emax.
Definition sub : t -> t -> t := SFsub prec emax.
Definition mul : t -> t -> t := SFmul prec emax.
Definition div : t -> t -> t := SFdiv prec emax.
Definition sqrt : t -> t := SFsqrt prec emax.

(** [a < b], [a <= b], [a == b] and [a > b] of Python floats *)
Definition ltb (a b : t) : bool := SFltb a b.
Definition leb (a b : t) : bool := SFleb a b.
Definition eqb (a b : t) : bool := SFeqb a b.
Definition gtb (a b : t) : bool := SFltb b a.

(** the decimal literal [n.d], d a single digit: correctly rounded n.d *)
Definition dec1 (n d : Z) : t := div (of_Z (10 * n + d)) (of_Z 10).
End F64.

Abbreviation float := F64.t.

(** ** Exceptions and results *)

Inductive key := KInt (z : Z) | KStr (s : string).

Inductive exn :=
| KeyError (k : key)
| TypeError (msg : string)
| HillasParameterizationError (msg : string).

Inductive Res (A : Type) :=
| Ok (a : A)
| Raise (e : exn).
Arguments Ok {A} a.
Arguments Raise {A} e.

(** ** Containers of the event and of the instrument *)

(** [ctapipe.instrument.CameraGeometry], the attributes the tool reads *)
Record CameraGeometry := {
  cam_id : string;
  pix_area : list float;
  cam_rotation : float
}.

(** the moments object returned by [hillas_parameters] *)
Module Moments.
Record t := {
  size : float;
  cen_x : float;
  cen_y : float;
  length : float;
  width : float;
  psi : float
}.
End Moments.

(** [HorizonFrame(alt=..., az=...)] *)
Record HorizonFrame := { alt : float; az : float }.

(** [NominalFrame(array_direction=..., pointing_direction=...)] *)
Record NominalFrame := {
  array_direction : HorizonFrame;
  nom_pointing_direction : HorizonFrame
}.

(** [CameraFrame(x=..., y=..., z=..., focal_length=..., rotation=...)] *)
Record CameraFrame := {
  cf_x : list float;
  cf_y : list float;
  cf_z : list float;
  focal_length : float;
  rotation : float
}.

(** [GroundFrame(x=..., y=..., z=...)] *)
Record GroundFrame := { gx : float; gy : float; gz : float }.

(** [TiltedGroundFrame(x=..., y=..., pointing_direction=...)] *)
Record TiltedGroundFrame := {
  tx : float;
  ty : float;
  pointing_direction : HorizonFrame
}.

(** [event.inst] *)
Record Instrument := {
  pixel_pos : Z -> list float * list float;
  optical_foclen : Z -> float;
  tel_pos : Z -> float * float * float
}.

(** [event.mc] *)
Record MCShower := {
  mc_core_x : float;
  mc_core_y : float;
  mc_alt : float;
  mc_az : float;
  mc_energy : float
}.

(** the event container: [event.dl0.event_id], [event.dl0.tels_with_data]
    (a set of telescope ids, here in its iteration order),
    [event.dl1.tel[tel_id].image[channel]],
    [event.mcheader.run_array_direction], [event.inst], [event.mc] *)
Record Event := {
  event_id : Z;
  tels_with_data : list Z;
  dl1_image : Z -> nat -> list float;
  run_array_direction : float * float;
  inst : Instrument;
  mc : MCShower
}.

(** [ReconstructedShowerContainer], the fields the tool touches *)
Record ReconstructedShowerContainer := {
  fit_alt : float;
  fit_az : float;
  core_x : float;
  core_y : float
}.

Definition set_core_x (v : float) (r : ReconstructedShowerContainer) :=
  {| fit_alt := fit_alt r; fit_az := fit_az r; core_x := v; core_y := core_y r |}.
Definition set_core_y (v : float) (r : ReconstructedShowerContainer) :=
  {| fit_alt := fit_alt r; fit_az := fit_az r; core_x := core_x r; core_y := v |}.

(** [ReconstructedEnergyContainer] *)
Record ReconstructedEnergyContainer := { energy : float }.

(** a row of the output table: EVENT_ID, RECO_ALT, RECO_AZ, RECO_EN,
    SIM_ALT, SIM_AZ, SIM_EN, NTELS *)
Record Row := {
  EVENT_ID : Z;
  RECO_ALT : float;
  RECO_AZ : float;
  RECO_EN : float;
  SIM_ALT : float;
  SIM_AZ : float;
  SIM_EN : float;
  NTELS : Z
}.

(** the dictionaries that [reconstruct_event] fills for one event *)
Record Dicts := {
  image : gmap Z (list float);
  pixel_x : gmap Z (list float);
  pixel_y : gmap Z (list float);
  pixel_area : gmap Z (list float);
  tel_type : gmap Z string;
  tel_x : gmap Z float;
  tel_y : gmap Z float;
  hillas : gmap Z Moments.t;
  hillas_nom : gmap Z Moments.t;
  tel_phi : gmap Z float;
  tel_theta : gmap Z float
}.

Definition empty_dicts : Dicts :=
  {| image := ∅; pixel_x := ∅; pixel_y := ∅; pixel_area := ∅; tel_type := ∅;
     tel_x := ∅; tel_y := ∅; hillas := ∅; hillas_nom := ∅;
     tel_phi := ∅; tel_theta := ∅ |}.

(** what [energy_reco.set_event_properties] is given *)
Record EventProperties := {
  ep_hillas : gmap Z Moments.t;
  ep_type : gmap Z string;
  ep_x : gmap Z float;
  ep_y : gmap Z float;
  ep_pointing : HorizonFrame
}.

(** ** The call log *)

Inductive Call :=
| Print (msg : string)
| CallEventSource (infile : string) (allowed_tels : option (list Z))
| CallGuess (tel_id : Z) (pix_x pix_y : list float) (foclen : float)
| CallTailcutsClean (geom : CameraGeometry) (img : list float)
    (picture_thresh boundary_thresh : Z)
| CallHillas (x y img : list float)
| CallDilate (geom : CameraGeometry) (mask : list bool)
| CallFitPredict (hillas_dict : gmap Z Moments.t)
| CallProjectToGround (core_tilt : TiltedGroundFrame)
| CallNormal (loc scale : float)
| CallSetEventProperties (props : EventProperties)
| CallEnergyPredict (shower : ReconstructedShowerContainer)
| CallWrite (outfile : string).

(** ** The tool object *)

Record Tool := {
  infile : string;
  outfile : string;
  telescopes : option (list Z);
  geoms : gmap Z CameraGeometry;
  amp_cut : gmap string Z;
  dist_cut : gmap string float;
  tail_cut : gmap string (Z * Z);
  source : list Event;
  output : list Row;
  rng : Z;
  calls : list Call
}.

(** ** State and exception monad over the tool *)

Definition M (A : Type) : Type := Tool -> Res A * Tool.

Definition ret {A} (a : A) : M A := fun st => (Ok a, st).
Definition raise {A} (e : exn) : M A := fun st => (Raise e, st).
Definition bind {A B} (m : M A) (f : A -> M B) : M B :=
  fun st => match m st with
            | (Ok a, st') => f a st'
            | (Raise e, st') => (Raise e, st')
            end.

Global Instance M_ret : MRet M := @ret.
Global Instance M_bind : MBind M := fun A B f m => bind m f.

Definition get : M Tool := fun st => (Ok st, st).
Definition modify (f : Tool -> Tool) : M unit := fun st => (Ok tt, f st).

(** [d[k]] *)
Definition getitem {K V} `{Countable K} (mk : K -> key) (d : gmap K V) (k : K) : M V :=
  match d !! k with
  | Some v => ret v
  | None => raise (KeyError (mk k))
  end.

Definition set_geoms (g : gmap Z CameraGeometry) (st : Tool) : Tool :=
  {| infile := infile st; outfile := outfile st; telescopes := telescopes st;
     geoms := g; amp_cut := amp_cut st; dist_cut := dist_cut st;
     tail_cut := tail_cut st; source := source st; output := output st;
     rng := rng st; calls := calls st |}.

Definition set_output (o : list Row) (st : Tool) : Tool :=
  {| infile := infile st; outfile := outfile st; telescopes := telescopes st;
     geoms := geoms st; amp_cut := amp_cut st; dist_cut := dist_cut st;
     tail_cut := tail_cut st; source := source st; output := o;
     rng := rng st; calls := calls st |}.

Definition set_rng (r : Z) (st : Tool) : Tool :=
  {| infile := infile st; outfile := outfile st; telescopes := telescopes st;
     geoms := geoms st; amp_cut := amp_cut st; dist_cut := dist_cut st;
     tail_cut := tail_cut st; source := source st; output := output st;
     rng := r; calls := calls st |}.

Definition set_calls (c : list Call) (st : Tool) : Tool :=
  {| infile := infile st; outfile := outfile st; telescopes := telescopes st;
     geoms := geoms st; amp_cut := amp_cut st; dist_cut := dist_cut st;
     tail_cut := tail_cut st; source := source st; output := output st;
     rng := rng st; calls := c |}.

(** record a call to a collaborator *)
Definition log (c : Call) : M unit := modify (fun st => set_calls (calls st ++ [c]) st).

(** ** The cut tables of [setup] *)

Definition amp_cut_table : gmap string Z :=
  <["LSTCam" := 100]> (<["NectarCam" := 100]> (<["FlashCam" := 100]> (<["GCT" := 50]> ∅))).

Definition dist_cut_table : gmap string float :=
  <["LSTCam" := F64.of_Z 2]> (<["NectarCam" := F64.dec1 3 3]>
    (<["FlashCam" := F64.of_Z 3]> (<["GCT" := F64.dec1 3 8]> ∅))).

Definition tail_cut_table : gmap string (Z * Z) :=
  <["LSTCam" := (8, 16)]> (<["NectarCam" := (7, 14)]>
    (<["FlashCam" := (7, 14)]> (<["GCT" := (3, 6)]> ∅))).

(** ** Collaborators

    The functions and objects of other ctapipe modules, of numpy/scipy and of
    astropy that the tool calls. [dilate geom mask] is the content of the
    mask array after the call [dilate(geom, mask)], whose return value the
    tool does not use. [hillas_parameters] returns the moments or raises.
    [normal] is one draw of [scipy.random.normal] from the global generator
    state, returned together with the next state. *)

Class Collaborators := {
  hessio_event_source : string -> option (list Z) -> list Event;
  r1_calibrate : Event -> Event;
  dl0_reduce : Event -> Event;
  dl1_calibrate : Event -> Event;
  guess : list float -> list float -> float -> CameraGeometry;
  camera_to_nominal : CameraFrame -> NominalFrame -> list float * list float;
  ground_to_tilted : GroundFrame -> HorizonFrame -> TiltedGroundFrame;
  project_to_ground : TiltedGroundFrame -> GroundFrame;
  tailcuts_clean : CameraGeometry -> list float -> Z -> Z -> list bool;
  dilate : CameraGeometry -> list bool -> list bool;
  hillas_parameters : list float -> list float -> list float -> Res Moments.t;
  fit_predict : gmap Z Moments.t -> Instrument -> gmap Z float -> gmap Z float ->
                ReconstructedShowerContainer;
  energy_predict : EventProperties -> ReconstructedShowerContainer ->
                   ReconstructedEnergyContainer;
  normal : Z -> float -> float -> float * Z
}.

(** ** numpy array operations used by the tool *)

(** [image * mask]: a boolean counts as 1.0 or 0.0 *)
Definition mul_mask (img : list float) (mask : list bool) : list float :=
  zip_with (fun v (b : bool) => F64.mul v (F64.of_Z (if b then 1 else 0))) img mask.

(** [arr[mask]]: the entries where the mask is set *)
Definition select {A} (arr : list A) (mask : list bool) : list A :=
  fst <$> filter (fun p : A * bool => snd p = true) (zip arr mask).

(** [np.zeros(arr.shape)] *)
Definition zeros_like (arr : list float) : list float := (fun _ => F64.zero) <$> arr.

(** the factor by which astropy turns radians into degrees *)
Definition deg_per_rad : float := S754_finite false 8063664102031864 (-47).

(** the configuration traits of the tool *)
Record Config := {
  cfg_infile : string;
  cfg_outfile : string;
  cfg_telescopes : option (list Z)
}.

(** the tool object before [setup], with numpy's generator in state [seed] *)
Definition new_tool (cfg : Config) (seed : Z) : Tool :=
  {| infile := cfg_infile cfg; outfile := cfg_outfile cfg;
     telescopes := cfg_telescopes cfg;
     geoms := ∅; amp_cut := ∅; dist_cut := ∅; tail_cut := ∅;
     source := []; output := []; rng := seed; calls := [] |}.

Section Tool.
Context {collab : Collaborators}.

Definition liftR {A} (r : Res A) : M A := fun st => (r, st).

(** ** [setup] *)

Definition setup : M unit :=
  modify (fun st =>
    {| infile := infile st; outfile := outfile st; telescopes := telescopes st;
       geoms := ∅; amp_cut := amp_cut_table; dist_cut := dist_cut_table;
       tail_cut := tail_cut_table; source := source st; output := output st;
       rng := rng st; calls := calls st |});;
  self ← get;
  log (Print (infile self));;
  n ← match telescopes self with
      | Some l => ret (Datatypes.length l)
      | None => raise (TypeError "object of type 'NoneType' has no len()")
      end;
  (if (n <? 2)%nat
   then modify (fun st =>
     {| infile := infile st; outfile := outfile st; telescopes := None;
        geoms := geoms st; amp_cut := amp_cut st; dist_cut := dist_cut st;
        tail_cut := tail_cut st; source := source st; output := output st;
        rng := rng st; calls := calls st |})
   else ret tt);;
  self ← get;
  log (CallEventSource (infile self) (telescopes self));;
  modify (fun st =>
    {| infile := infile st; outfile := outfile st; telescopes := telescopes st;
       geoms := geoms st; amp_cut := amp_cut st; dist_cut := dist_cut st;
       tail_cut := tail_cut st;
       source := hessio_event_source (infile st) (telescopes st);
       output := []; rng := rng st; calls := calls st |}).

(** ** [calibrate_event]: the three calibrators update the event in place *)

Definition calibrate_event (event : Event) : M Event :=
  ret (dl1_calibrate (dl0_reduce (r1_calibrate event))).

(** ** [preselect] *)

Definition preselect (hillas : option Moments.t) (tel_id : Z) : M bool :=
  match hillas with
  | None => ret false
  | Some h =>
      let dist := F64.sqrt (F64.add (F64.mul (Moments.cen_x h) (Moments.cen_x h))
                                    (F64.mul (Moments.cen_y h) (Moments.cen_y h))) in
      self ← get;
      g ← getitem KInt (geoms self) tel_id;
      amp ← getitem KStr (amp_cut self) (cam_id g);
      if F64.gtb (Moments.size h) (F64.of_Z amp) then
        g ← getitem KInt (geoms self) tel_id;
        dcut ← getitem KStr (dist_cut self) (cam_id g);
        if F64.ltb dist dcut then
          if F64.gtb (Moments.width h) F64.zero
          then ret true
          else ret false
        else ret false
      else ret false
  end.

(** ** [reconstruct_event] *)

(** [try: body except HillasParameterizationError as e: handler(e)] *)
Definition try_except_hillas {A} (body : M A) (handler : string -> M A) : M A :=
  fun st => match body st with
            | (Raise (HillasParameterizationError msg), st') => handler msg st'
            | r => r
            end.

Definition call_hillas (x y img : list float) : M Moments.t :=
  log (CallHillas x y img);; liftR (hillas_parameters x y img).

(** [for i in range(n): dilate(geom, mask)] *)
Fixpoint dilate_times (n : nat) (geom : CameraGeometry) (mask : list bool)
  : M (list bool) :=
  match n with
  | O => ret mask
  | S n' => log (CallDilate geom mask);; dilate_times n' geom (dilate geom mask)
  end.

(** [scipy.random.normal(loc, scale)] *)
Definition scipy_random_normal (loc scale : float) : M float :=
  self ← get;
  log (CallNormal loc scale);;
  modify (set_rng (snd (normal (rng self) loc scale)));;
  ret (fst (normal (rng self) loc scale)).

(** the body of [for tel_id in event.dl0.tels_with_data]; the result is
    the dictionaries after the iteration ([continue] leaves them as they
    were) *)
Definition process_telescope (event : Event) (array_pointing : HorizonFrame)
    (tel_id : Z) (d : Dicts) : M Dicts :=
  let pmt_signal := dl1_image event tel_id 0%nat in
  let nom_system := {| array_direction := array_pointing;
                       nom_pointing_direction := array_pointing |} in
  let pix_x := fst (pixel_pos (inst event) tel_id) in
  let pix_y := snd (pixel_pos (inst event) tel_id) in
  let fl := optical_foclen (inst event) tel_id in
  self ← get;
  match geoms self !! tel_id with
  | None =>
      log (CallGuess tel_id pix_x pix_y (optical_foclen (inst event) tel_id));;
      modify (fun st => set_geoms
        (<[tel_id := guess pix_x pix_y (optical_foclen (inst event) tel_id)]> (geoms st)) st)
  | Some _ => ret tt
  end;;
  self ← get;
  geom ← getitem KInt (geoms self) tel_id;
  let camera_coord := {| cf_x := pix_x; cf_y := pix_y; cf_z := zeros_like pix_x;
                         focal_length := fl;
                         rotation := F64.mul (F64.of_Z (-1)) (cam_rotation geom) |} in
  let nom_coord := camera_to_nominal camera_coord nom_system in
  let grd_tel := {| gx := fst (fst (tel_pos (inst event) tel_id));
                    gy := snd (fst (tel_pos (inst event) tel_id));
                    gz := snd (tel_pos (inst event) tel_id) |} in
  let tilt_tel := ground_to_tilted grd_tel array_pointing in
  picture ← getitem KStr (tail_cut self) (cam_id geom);
  boundary ← getitem KStr (tail_cut self) (cam_id geom);
  log (CallTailcutsClean geom pmt_signal (snd picture) (fst boundary));;
  let mask := tailcuts_clean geom pmt_signal (snd picture) (fst boundary) in
  r ← try_except_hillas
        (moments_cam ← call_hillas (fst (pixel_pos (inst event) tel_id))
                                   (snd (pixel_pos (inst event) tel_id))
                                   (mul_mask pmt_signal mask);
         moments ← call_hillas (fst nom_coord) (snd nom_coord)
                               (mul_mask pmt_signal mask);
         ret (Some (moments_cam, moments)))
        (fun e => log (Print e);; ret None);
  match r with
  | None => ret d
  | Some (moments_cam, moments) =>
      ok ← preselect (Some moments) tel_id;
      if ok : bool then
        mask ← dilate_times 2 geom mask;
        ret {| pixel_area := <[tel_id := (fun a => F64.div a (F64.mul fl fl)) <$> pix_area geom]>
                               (pixel_area d);
               pixel_x := <[tel_id := select (fst nom_coord) mask]> (pixel_x d);
               pixel_y := <[tel_id := select (snd nom_coord) mask]> (pixel_y d);
               tel_x := <[tel_id := tx tilt_tel]> (tel_x d);
               tel_y := <[tel_id := ty tilt_tel]> (tel_y d);
               tel_type := <[tel_id := cam_id geom]> (tel_type d);
               image := <[tel_id := select pmt_signal mask]> (image d);
               hillas := <[tel_id := moments_cam]> (hillas d);
               hillas_nom := <[tel_id := moments]> (hillas_nom d);
               tel_phi := <[tel_id := az array_pointing]> (tel_phi d);
               tel_theta := <[tel_id := F64.sub (F64.of_Z 90)
                                          (F64.mul (alt array_pointing) deg_per_rad)]>
                              (tel_theta d) |}
      else ret d
  end.

Fixpoint telescope_loop (event : Event) (array_pointing : HorizonFrame)
    (tels : list Z) (d : Dicts) : M Dicts :=
  match tels with
  | [] => ret d
  | tel_id :: rest =>
      d' ← process_telescope event array_pointing tel_id d;
      telescope_loop event array_pointing rest d'
  end.

Definition array_pointing_of (event : Event) : HorizonFrame :=
  {| alt := snd (run_array_direction event); az := fst (run_array_direction event) |}.

(** the block under [if len(image) > 1] *)
Definition stereo (event : Event) (array_pointing : HorizonFrame) (d : Dicts) : M unit :=
  log (CallFitPredict (hillas d));;
  let fit_result := fit_predict (hillas d) (inst event) (tel_phi d) (tel_theta d) in
  let core_tilt := {| tx := core_x fit_result; ty := core_y fit_result;
                      pointing_direction := array_pointing |} in
  log (CallProjectToGround core_tilt);;
  let core := project_to_ground core_tilt in
  let fit_result := set_core_x (tx core_tilt) fit_result in
  let fit_result := set_core_y (ty core_tilt) fit_result in
  vx ← scipy_random_normal (mc_core_x (mc event)) (F64.of_Z 25);
  let fit_result := set_core_x vx fit_result in
  vy ← scipy_random_normal (mc_core_y (mc event)) (F64.of_Z 25);
  let fit_result := set_core_y vy fit_result in
  let props := {| ep_hillas := hillas_nom d; ep_type := tel_type d;
                  ep_x := tel_x d; ep_y := tel_y d;
                  ep_pointing := array_pointing |} in
  log (CallSetEventProperties props);;
  log (CallEnergyPredict fit_result);;
  let energy_result := energy_predict props fit_result in
  modify (fun st => set_output
    (output st ++ [ {| EVENT_ID := event_id event;
                       RECO_ALT := fit_alt fit_result;
                       RECO_AZ := fit_az fit_result;
                       RECO_EN := energy energy_result;
                       SIM_ALT := mc_alt (mc event);
                       SIM_AZ := mc_az (mc event);
                       SIM_EN := mc_energy (mc event);
                       NTELS := Z.of_nat (size (image d)) |} ]) st).

Definition reconstruct_event (event : Event) : M unit :=
  let array_pointing := array_pointing_of event in
  d ← telescope_loop event array_pointing (tels_with_data event) empty_dicts;
  if (1 <? size (image d))%nat
  then stereo event array_pointing d
  else ret tt.

(** ** [start] and [finish] *)

Fixpoint event_loop (events : list Event) : M unit :=
  match events with
  | [] => ret tt
  | event :: rest =>
      event' ← calibrate_event event;
      reconstruct_event event';;
      event_loop rest
  end.

(** [source] holds the events the generator yields, in order; that the
    generator is used up by the loop is not tracked in the tool record *)
Definition start : M unit :=
  self ← get;
  event_loop (source self).

Definition finish : M bool :=
  self ← get;
  log (CallWrite (outfile self));;
  ret true.

(** Modelled from the spec: the driver [run] of the base class [Tool], which
    [main] calls and which is not part of this file; it runs setup, then
    start over the event source, then finish, which persists the table at
    run completion. *)
Definition run : M bool := setup;; start;; finish.

End Tool.

(** * Notions used to state the properties *)

Section Notions.
Context {collab : Collaborators}.

(** the centroid distance that [preselect] computes *)
Definition centroid_dist (h : Moments.t) : float :=
  F64.sqrt (F64.add (F64.mul (Moments.cen_x h) (Moments.cen_x h))
                    (F64.mul (Moments.cen_y h) (Moments.cen_y h))).

(** the three cuts of [preselect], once the thresholds are known *)
Definition cuts_pass (h : Moments.t) (amp : Z) (dcut : float) : bool :=
  F64.gtb (Moments.size h) (F64.of_Z amp)
  && F64.ltb (centroid_dist h) dcut
  && F64.gtb (Moments.width h) F64.zero.

(** the moments [h] with another size *)
Definition with_size (s : float) (h : Moments.t) : Moments.t :=
  {| Moments.size := s; Moments.cen_x := Moments.cen_x h;
     Moments.cen_y := Moments.cen_y h; Moments.length := Moments.length h;
     Moments.width := Moments.width h; Moments.psi := Moments.psi h |}.

(** the geometry the iteration works with: the registry's, or the one
    inferred now *)
Definition tel_geometry (st : Tool) (event : Event) (tel_id : Z) : CameraGeometry :=
  match geoms st !! tel_id with
  | Some g => g
  | None => guess (fst (pixel_pos (inst event) tel_id))
                  (snd (pixel_pos (inst event) tel_id))
                  (optical_foclen (inst event) tel_id)
  end.

Definition guess_calls (st : Tool) (event : Event) (tel_id : Z) : list Call :=
  match geoms st !! tel_id with
  | Some _ => []
  | None => [CallGuess tel_id (fst (pixel_pos (inst event) tel_id))
                       (snd (pixel_pos (inst event) tel_id))
                       (optical_foclen (inst event) tel_id)]
  end.

(** [preselect] on present moments, for a telescope of geometry [geom] *)
Definition select_cuts (st : Tool) (geom : CameraGeometry) (m : Moments.t) : Res bool :=
  match amp_cut st !! cam_id geom with
  | None => Raise (KeyError (KStr (cam_id geom)))
  | Some amp =>
      if F64.gtb (Moments.size m) (F64.of_Z amp) then
        match dist_cut st !! cam_id geom with
        | None => Raise (KeyError (KStr (cam_id geom)))
        | Some dcut =>
            Ok (F64.ltb (centroid_dist m) dcut && F64.gtb (Moments.width m) F64.zero)
        end
      else Ok false
  end.

(** how an iteration ends *)
Inductive Outcome :=
| Fails (e : exn)
| Skips (msg : string)
| Rejects
| Accepts (moments_cam moments : Moments.t) (mask : list bool).

Definition nominal_pixels (event : Event) (ap : HorizonFrame) (tel_id : Z)
    (geom : CameraGeometry) : list float * list float :=
  camera_to_nominal
    {| cf_x := fst (pixel_pos (inst event) tel_id);
       cf_y := snd (pixel_pos (inst event) tel_id);
       cf_z := zeros_like (fst (pixel_pos (inst event) tel_id));
       focal_length := optical_foclen (inst event) tel_id;
       rotation := F64.mul (F64.of_Z (-1)) (cam_rotation geom) |}
    {| array_direction := ap; nom_pointing_direction := ap |}.

(** the outcome of the iteration for [tel_id] and the calls it makes after
    the geometry is in the registry *)
Definition reduction (st : Tool) (event : Event) (ap : HorizonFrame) (tel_id : Z)
  : Outcome * list Call :=
  let geom := tel_geometry st event tel_id in
  let pmt_signal := dl1_image event tel_id 0%nat in
  let nom := nominal_pixels event ap tel_id geom in
  match tail_cut st !! cam_id geom with
  | None => (Fails (KeyError (KStr (cam_id geom))), [])
  | Some tc =>
      let mask := tailcuts_clean geom pmt_signal (snd tc) (fst tc) in
      let img := mul_mask pmt_signal mask in
      let c0 := [CallTailcutsClean geom pmt_signal (snd tc) (fst tc);
                 CallHillas (fst (pixel_pos (inst event) tel_id))
                            (snd (pixel_pos (inst event) tel_id)) img] in
      match hillas_parameters (fst (pixel_pos (inst event) tel_id))
                              (snd (pixel_pos (inst event) tel_id)) img with
      | Raise (HillasParameterizationError msg) => (Skips msg, c0 ++ [Print msg])
      | Raise e => (Fails e, c0)
      | Ok mc =>
          let c1 := c0 ++ [CallHillas (fst nom) (snd nom) img] in
          match hillas_parameters (fst nom) (snd nom) img with
          | Raise (HillasParameterizationError msg) => (Skips msg, c1 ++ [Print msg])
          | Raise e => (Fails e, c1)
          | Ok m =>
              match select_cuts st geom m with
              | Raise e => (Fails e, c1)
              | Ok false => (Rejects, c1)
              | Ok true =>
                  (Accepts mc m (dilate geom (dilate geom mask)),
                   c1 ++ [CallDilate geom mask; CallDilate geom (dilate geom mask)])
              end
          end
      end
  end.

(** the dictionaries after an accepted telescope has been saved *)
Definition saved (event : Event) (ap : HorizonFrame) (tel_id : Z)
    (geom : CameraGeometry) (moments_cam moments : Moments.t) (mask : list bool)
    (d : Dicts) : Dicts :=
  let fl := optical_foclen (inst event) tel_id in
  let nom := nominal_pixels event ap tel_id geom in
  let tilt_tel := ground_to_tilted
    {| gx := fst (fst (tel_pos (inst event) tel_id));
       gy := snd (fst (tel_pos (inst event) tel_id));
       gz := snd (tel_pos (inst event) tel_id) |} ap in
  {| pixel_area := <[tel_id := (fun a => F64.div a (F64.mul fl fl)) <$> pix_area geom]>
                     (pixel_area d);
     pixel_x := <[tel_id := select (fst nom) mask]> (pixel_x d);
     pixel_y := <[tel_id := select (snd nom) mask]> (pixel_y d);
     tel_x := <[tel_id := tx tilt_tel]> (tel_x d);
     tel_y := <[tel_id := ty tilt_tel]> (tel_y d);
     tel_type := <[tel_id := cam_id geom]> (tel_type d);
     image := <[tel_id := select (dl1_image event tel_id 0%nat) mask]> (image d);
     hillas := <[tel_id := moments_cam]> (hillas d);
     hillas_nom := <[tel_id := moments]> (hillas_nom d);
     tel_phi := <[tel_id := az ap]> (tel_phi d);
     tel_theta := <[tel_id := F64.sub (F64.of_Z 90) (F64.mul (alt ap) deg_per_rad)]>
                    (tel_theta d) |}.

Definition outcome_result (o : Outcome) (event : Event) (ap : HorizonFrame)
    (tel_id : Z) (geom : CameraGeometry) (d : Dicts) : Res Dicts :=
  match o with
  | Fails e => Raise e
  | Skips _ | Rejects => Ok d
  | Accepts mc m mask => Ok (saved event ap tel_id geom mc m mask d)
  end.

(** the tool after the iteration for [tel_id] that made the calls [cs] *)
Definition tool_after (st : Tool) (event : Event) (tel_id : Z) (cs : list Call) : Tool :=
  set_calls (calls st ++ guess_calls st event tel_id ++ cs)
    (set_geoms (<[tel_id := tel_geometry st event tel_id]> (geoms st)) st).

(** two tools that an iteration for [tel_id] cannot tell apart *)
Definition agree (tel_id : Z) (st st' : Tool) : Prop :=
  geoms st !! tel_id = geoms st' !! tel_id /\ tail_cut st = tail_cut st' /\
  amp_cut st = amp_cut st' /\ dist_cut st = dist_cut st'.

(** the telescope passes reduction and selection *)
Definition accepts (st : Tool) (event : Event) (ap : HorizonFrame) (tel_id : Z) : bool :=
  match fst (reduction st event ap tel_id) with
  | Accepts _ _ _ => true
  | _ => false
  end.

(** the telescopes of [tels] that pass, in order *)
Definition passing (st : Tool) (event : Event) (ap : HorizonFrame) (tels : list Z) : list Z :=
  filter (fun tel_id => accepts st event ap tel_id = true) tels.

(** the shower handed to the energy estimator: the fit result with its
    core replaced by the two draws *)
Definition shower_for_energy (event : Event) (d : Dicts) (st : Tool)
  : ReconstructedShowerContainer :=
  let fit_result := fit_predict (hillas d) (inst event) (tel_phi d) (tel_theta d) in
  let draw_x := normal (rng st) (mc_core_x (mc event)) (F64.of_Z 25) in
  let draw_y := normal (snd draw_x) (mc_core_y (mc event)) (F64.of_Z 25) in
  {| fit_alt := fit_alt fit_result; fit_az := fit_az fit_result;
     core_x := fst draw_x; core_y := fst draw_y |}.

Definition properties_for_energy (ap : HorizonFrame) (d : Dicts) : EventProperties :=
  {| ep_hillas := hillas_nom d; ep_type := tel_type d;
     ep_x := tel_x d; ep_y := tel_y d; ep_pointing := ap |}.

Definition stereo_calls (event : Event) (ap : HorizonFrame) (d : Dicts) (st : Tool)
  : list Call :=
  let fit_result := fit_predict (hillas d) (inst event) (tel_phi d) (tel_theta d) in
  [CallFitPredict (hillas d);
   CallProjectToGround {| tx := core_x fit_result; ty := core_y fit_result;
                          pointing_direction := ap |};
   CallNormal (mc_core_x (mc event)) (F64.of_Z 25);
   CallNormal (mc_core_y (mc event)) (F64.of_Z 25);
   CallSetEventProperties (properties_for_energy ap d);
   CallEnergyPredict (shower_for_energy event d st)].

Definition stereo_row (event : Event) (ap : HorizonFrame) (d : Dicts) (st : Tool) : Row :=
  {| EVENT_ID := event_id event;
     RECO_ALT := fit_alt (shower_for_energy event d st);
     RECO_AZ := fit_az (shower_for_energy event d st);
     RECO_EN := energy (energy_predict (properties_for_energy ap d)
                                       (shower_for_energy event d st));
     SIM_ALT := mc_alt (mc event);
     SIM_AZ := mc_az (mc event);
     SIM_EN := mc_energy (mc event);
     NTELS := Z.of_nat (size (image d)) |}.

(** how often the stereo fitter and the energy estimator are called *)
Definition is_fit (c : Call) : bool :=
  match c with CallFitPredict _ => true | _ => false end.
Definition is_energy (c : Call) : bool :=
  match c with CallEnergyPredict _ => true | _ => false end.
Definition count (f : Call -> bool) (cs : list Call) : nat :=
  Datatypes.length (List.filter f cs).

Definition is_guess (tel_id : Z) (c : Call) : bool :=
  match c with
  | CallGuess t _ _ _ => Z.eqb t tel_id
  | _ => false
  end.

(** 1 when the registry holds a geometry for [tel_id], else 0 *)
Definition cached (st : Tool) (tel_id : Z) : nat :=
  match geoms st !! tel_id with Some _ => 1 | None => 0 end.

(** between [st] and [st'] no entry was removed or replaced, and a
    geometry was inferred exactly for the telescopes that entered *)
Definition write_once (st st' : Tool) : Prop :=
  (forall tel_id g, geoms st !! tel_id = Some g -> geoms st' !! tel_id = Some g) /\
  (forall tel_id, (count (is_guess tel_id) (calls st') + cached st tel_id
                   = count (is_guess tel_id) (calls st) + cached st' tel_id)%nat).

(** The image reducer in the specification's wording: build the cleaning
    mask, dilate it twice, then compute the moments over camera and over
    nominal positions, both masked by the dilated mask. The calls it would
    make for [tel_id]. *)
Definition reducer_as_specified (st : Tool) (event : Event) (ap : HorizonFrame)
    (tel_id : Z) : list Call :=
  let geom := tel_geometry st event tel_id in
  let pmt_signal := dl1_image event tel_id 0%nat in
  let nom := nominal_pixels event ap tel_id geom in
  match tail_cut st !! cam_id geom with
  | None => []
  | Some tc =>
      let mask := tailcuts_clean geom pmt_signal (snd tc) (fst tc) in
      let dilated := dilate geom (dilate geom mask) in
      [CallTailcutsClean geom pmt_signal (snd tc) (fst tc);
       CallDilate geom mask;
       CallDilate geom (dilate geom mask);
       CallHillas (fst (pixel_pos (inst event) tel_id))
                  (snd (pixel_pos (inst event) tel_id))
                  (mul_mask pmt_signal dilated);
       CallHillas (fst nom) (snd nom) (mul_mask pmt_signal dilated)]
  end.

End Notions.

(** ** A small concrete array, to evaluate the tool on *)

Module Demo.
Definition sum (l : list float) : float := foldr F64.add F64.zero l.

(** camera type by the number of pixels: 2, 3, 4 pixels are the three
    registered large cameras, anything else an unregistered one *)
Definition demo_guess (pix_x pix_y : list float) (fl : float) : CameraGeometry :=
  {| cam_id := match Datatypes.length pix_x with
               | 2%nat => "LSTCam"
               | 3%nat => "NectarCam"
               | 4%nat => "FlashCam"
               | _ => "ASTRICam"
               end;
     pix_area := (fun _ => F64.of_Z 1) <$> pix_x;
     cam_rotation := F64.zero |}.

(** pixels at or above the picture threshold *)
Definition demo_clean (g : CameraGeometry) (img : list float) (picture boundary : Z)
  : list bool := (fun v => F64.leb (F64.of_Z picture) v) <$> img.

(** every pixel of a small camera neighbours a set one *)
Definition demo_dilate (g : CameraGeometry) (mask : list bool) : list bool :=
  (fun _ => existsb id mask) <$> mask.

Definition dot (a b : list float) : float := sum (zip_with F64.mul a b).

(** size, centroid and a fixed shape; an image without signal is refused *)
Definition demo_hillas (x y img : list float) : Res Moments.t :=
  if F64.gtb (sum img) F64.zero
  then Ok {| Moments.size := sum img;
             Moments.cen_x := F64.div (dot x img) (sum img);
             Moments.cen_y := F64.div (dot y img) (sum img);
             Moments.length := F64.dec1 0 2;
             Moments.width := F64.dec1 0 1;
             Moments.psi := F64.zero |}
  else Raise (HillasParameterizationError "no signal left").

Definition demo_collaborators : Collaborators :=
  {| hessio_event_source := fun _ _ => [];
     r1_calibrate := id; dl0_reduce := id; dl1_calibrate := id;
     guess := demo_guess;
     camera_to_nominal := fun c _ => (cf_x c, cf_y c);
     ground_to_tilted := fun g p =>
       {| tx := gx g; ty := gy g; pointing_direction := p |};
     project_to_ground := fun t =>
       {| gx := F64.add (tx t) (F64.of_Z 1); gy := F64.add (ty t) (F64.of_Z 1);
          gz := F64.zero |};
     tailcuts_clean := demo_clean;
     dilate := demo_dilate;
     hillas_parameters := demo_hillas;
     fit_predict := fun _ _ _ _ =>
       {| fit_alt := F64.of_Z 70; fit_az := F64.of_Z 180;
          core_x := F64.of_Z 10; core_y := F64.of_Z 20 |};
     energy_predict := fun _ _ => {| energy := F64.of_Z 1 |};
     normal := fun s loc scale => (F64.add loc (F64.of_Z s), s + 1) |}.

Definition demo_inst : Instrument :=
  {| pixel_pos := fun tel_id =>
       match tel_id with
       | 1 => ([F64.of_Z 0; F64.of_Z 1], [F64.of_Z 0; F64.of_Z 0])
       | 2 => ([F64.of_Z 0; F64.of_Z 1; F64.of_Z 2], [F64.of_Z 0; F64.of_Z 0; F64.of_Z 0])
       | 3 => ([F64.of_Z 0; F64.of_Z 1; F64.of_Z 0; F64.of_Z 1],
               [F64.of_Z 0; F64.of_Z 0; F64.of_Z 1; F64.of_Z 1])
       | _ => ([F64.of_Z 0], [F64.of_Z 0])
       end;
     optical_foclen := fun _ => F64.of_Z 28;
     tel_pos := fun tel_id => (F64.of_Z (100 * tel_id), F64.of_Z 0, F64.of_Z 0) |}.

Definition demo_mc : MCShower :=
  {| mc_core_x := F64.of_Z 5; mc_core_y := F64.of_Z 6;
     mc_alt := F64.of_Z 70; mc_az := F64.of_Z 180; mc_energy := F64.of_Z 2 |}.

(** an event seen by the telescopes [tels], each with the image [img] *)
Definition demo_event (tels : list Z) (img : Z -> list float) : Event :=
  {| event_id := 7; tels_with_data := tels;
     dl1_image := fun tel_id _ => img tel_id;
     run_array_direction := (F64.zero, F64.of_Z 1);
     inst := demo_inst; mc := demo_mc |}.

(** telescope 1: a bright pixel and a faint one; telescope 2: two bright
    pixels; telescope 3: nothing above threshold; others: one bright pixel *)
Definition demo_images (tel_id : Z) : list float :=
  match tel_id with
  | 1 => [F64.of_Z 200; F64.of_Z 5]
  | 2 => [F64.of_Z 90; F64.of_Z 80; F64.of_Z 1]
  | 3 => [F64.of_Z 1; F64.of_Z 2; F64.of_Z 1; F64.of_Z 2]
  | _ => [F64.of_Z 300]
  end.

(** the tool right after [setup]'s tables are in place *)
Definition ready : Tool :=
  {| infile := "gamma.simtel.gz"; outfile := "reco.fits"; telescopes := None;
     geoms := ∅; amp_cut := amp_cut_table; dist_cut := dist_cut_table;
     tail_cut := tail_cut_table; source := []; output := []; rng := 0;
     calls := [] |}.
End Demo.

(** ** Runs on the small array *)

Module DemoRun.
Import Demo.

Definition all_three : Event := demo_event [1; 2; 3] demo_images.
Definition two_bright : Event := demo_event [1; 2] demo_images.
Definition with_unknown : Event := demo_event [1; 5] demo_images.
Definition pointing : HorizonFrame := array_pointing_of all_three.

(** the tool once telescope 1 is in the registry *)
Definition seen_one : Tool :=
  set_geoms {[ 1 := demo_guess (fst (pixel_pos demo_inst 1))
                               (snd (pixel_pos demo_inst 1))
                               (optical_foclen demo_inst 1) ]} ready.

Definition lst_geometry : CameraGeometry :=
  demo_guess (fst (pixel_pos demo_inst 1)) (snd (pixel_pos demo_inst 1))
             (optical_foclen demo_inst 1).

(** size 150, centroid at 1 degree, width 0.05 degrees *)
Definition bright : Moments.t :=
  {| Moments.size := F64.of_Z 150; Moments.cen_x := F64.of_Z 1;
     Moments.cen_y := F64.zero; Moments.length := F64.dec1 0 2;
     Moments.width := F64.div (F64.of_Z 5) (F64.of_Z 100);
     Moments.psi := F64.zero |}.

Definition loop_result :=
  @telescope_loop demo_collaborators all_three pointing [1; 2; 3] empty_dicts ready.

Definition loop_dicts : Dicts :=
  match fst loop_result with Ok d => d | Raise _ => empty_dicts end.
End DemoRun.

(** * Notions for the further properties *)

Section Ledger.
Context {collab : Collaborators}.

(** the event as [reconstruct_event] receives it from [start] *)
Definition calibrated (event : Event) : Event :=
  dl1_calibrate (dl0_reduce (r1_calibrate event)).

Definition is_project (c : Call) : bool :=
  match c with CallProjectToGround _ => true | _ => false end.
Definition is_normal (c : Call) : bool :=
  match c with CallNormal _ _ => true | _ => false end.
Definition is_write (c : Call) : bool :=
  match c with CallWrite _ => true | _ => false end.

(** the calls that the telescope loop can make *)
Definition is_reduction_call (c : Call) : bool :=
  match c with
  | Print _ | CallGuess _ _ _ _ | CallTailcutsClean _ _ _ _
  | CallHillas _ _ _ | CallDilate _ _ => true
  | _ => false
  end.

(** the row [row] is the one written for the event [event] *)
Definition row_of (event : Event) (row : Row) : Prop :=
  EVENT_ID row = event_id event /\
  SIM_ALT row = mc_alt (mc event) /\
  SIM_AZ row = mc_az (mc event) /\
  SIM_EN row = mc_energy (mc event) /\
  2 <= NTELS row <= Z.of_nat (Datatypes.length (tels_with_data event)).

(** what [start] leaves alone: the traits, the cut tables and the source *)
Definition same_configuration (st st' : Tool) : Prop :=
  infile st' = infile st /\ outfile st' = outfile st /\
  telescopes st' = telescopes st /\ source st' = source st /\
  amp_cut st' = amp_cut st /\ dist_cut st' = dist_cut st /\
  tail_cut st' = tail_cut st.

(** the eleven dictionaries of an event have the same keys *)
Definition dicts_aligned (d : Dicts) : Prop :=
  dom (pixel_x d) = dom (image d) /\ dom (pixel_y d) = dom (image d) /\
  dom (pixel_area d) = dom (image d) /\ dom (tel_type d) = dom (image d) /\
  dom (tel_x d) = dom (image d) /\ dom (tel_y d) = dom (image d) /\
  dom (hillas d) = dom (image d) /\ dom (hillas_nom d) = dom (image d) /\
  dom (tel_phi d) = dom (image d) /\ dom (tel_theta d) = dom (image d).

(** every telescope kept in the dictionaries has a camera type with its
    thresholds in the three tables, and nominal moments inside the cuts *)
Definition cuts_respected (st : Tool) (d : Dicts) : Prop :=
  forall tel_id m, hillas_nom d !! tel_id = Some m ->
    exists cam amp dcut,
      tel_type d !! tel_id = Some cam /\
      is_Some (tail_cut st !! cam) /\
      amp_cut st !! cam = Some amp /\
      dist_cut st !! cam = Some dcut /\
      cuts_pass m amp dcut = true.

(** what the eleven dictionaries hold for one telescope *)
Definition entry (d : Dicts) (tel_id : Z) :=
  (image d !! tel_id, pixel_x d !! tel_id, pixel_y d !! tel_id,
   pixel_area d !! tel_id, tel_type d !! tel_id, tel_x d !! tel_id,
   tel_y d !! tel_id, hillas d !! tel_id, hillas_nom d !! tel_id,
   tel_phi d !! tel_id, tel_theta d !! tel_id).

(** the entries of [d] for [tel_id] are the ones saved from the moments
    over the cleaning mask of the geometry [geom] and from its mask after
    two dilations *)
Definition saved_from (st : Tool) (event : Event) (ap : HorizonFrame)
    (tel_id : Z) (geom : CameraGeometry) (d : Dicts) : Prop :=
  exists tc mc m,
    let pmt_signal := dl1_image event tel_id 0%nat in
    let mask := tailcuts_clean geom pmt_signal (snd tc) (fst tc) in
    let nom := nominal_pixels event ap tel_id geom in
    tail_cut st !! cam_id geom = Some tc /\
    hillas_parameters (fst (pixel_pos (inst event) tel_id))
                      (snd (pixel_pos (inst event) tel_id))
                      (mul_mask pmt_signal mask) = Ok mc /\
    hillas_parameters (fst nom) (snd nom) (mul_mask pmt_signal mask) = Ok m /\
    entry d tel_id =
    entry (saved event ap tel_id geom mc m (dilate geom (dilate geom mask))
             empty_dicts) tel_id.

(** every telescope in the dictionaries is there as saved from its
    registry geometry *)
Definition kept_as_saved (st : Tool) (event : Event) (ap : HorizonFrame)
    (d : Dicts) : Prop :=
  forall tel_id, tel_id ∈ dom (image d) ->
    exists geom, geoms st !! tel_id = Some geom /\
                 saved_from st event ap tel_id geom d.

(** The consequence that the specification draws from the length test of
    setup, in its wording: it is impossible to restrict processing to
    exactly one telescope. A list names one telescope when all its entries
    are that telescope. *)
Definition names_one_telescope (l : list Z) : Prop :=
  exists t, forall x, x ∈ l <-> x = t.

Definition never_one_telescope (st : Tool) : Prop :=
  forall file l,
    CallEventSource file (Some l) ∈ calls (snd (setup st)) ->
    ~ names_one_telescope l.

End Ledger.

(** ** A moment routine that refuses arrays of different lengths *)

Module Picky.


End Picky.

(** ** A later event in which telescope 1 reports other pixel arrays *)

Module Later.
Definition three_pixel_inst : Instrument :=
  {| pixel_pos := fun _ => ([F64.of_Z 0; F64.of_Z 1; F64.of_Z 2],
                            [F64.of_Z 0; F64.of_Z 0; F64.of_Z 0]);
     optical_foclen := fun _ => F64.of_Z 16;
     tel_pos := tel_pos Demo.demo_inst |}.

Definition resized : Event :=
  {| event_id := 8; tels_with_data := [1; 2];
     dl1_image := fun tel_id _ => Demo.demo_images tel_id;
     run_array_direction := (F64.zero, F64.of_Z 1);
     inst := three_pixel_inst; mc := Demo.demo_mc |}.
End Later.

(** ** A tool whose distance-cut table is empty *)

Module Partial.
(** telescope 1 registered as an LST camera; amplitude cuts but no distance cuts *)
Definition no_dist_cut : Tool :=
  {| infile := infile DemoRun.seen_one; outfile := outfile DemoRun.seen_one;
     telescopes := None; geoms := geoms DemoRun.seen_one;
     amp_cut := amp_cut_table; dist_cut := ∅; tail_cut := tail_cut_table;
     source := []; output := []; rng := 0; calls := [] |}.

(** the moments of telescope 1 on the small array *)
Definition moments_of_one : Moments.t :=
  {| Moments.size := F64.of_Z 200; Moments.cen_x := F64.zero;
     Moments.cen_y := F64.zero; Moments.length := F64.dec1 0 2;
     Moments.width := F64.dec1 0 1; Moments.psi := F64.zero |}.

Definition alone : Event := Demo.demo_event [1] Demo.demo_images.
End Partial.

(** * Properties *)

(** ** Binary64 comparisons *)

Lemma SFcompare_flip (a b : float) :
  SFcompare b a = CompOpp <$> SFcompare a b.
Proof.
  destruct a as [sa|sa| |sa ma ea], b as [sb|sb| |sb mb eb]; cbn;
    try reflexivity;
    try (destruct sa; reflexivity); try (destruct sb; reflexivity);
    try (destruct sa, sb; reflexivity).
  destruct sa, sb; cbn; try reflexivity;
    rewrite (Z.compare_antisym ea eb);
    destruct (Z.compare ea eb) eqn:E; cbn; try reflexivity;
    change (PosDef.Pos.compare_cont Eq mb ma) with (Pos.compare mb ma);
    change (PosDef.Pos.compare_cont Eq ma mb) with (Pos.compare ma mb);
    rewrite (Pos.compare_antisym ma mb);
    destruct (Pos.compare ma mb); reflexivity.
Qed.

Lemma leb_not_gtb (a b : float) : F64.leb a b = true -> F64.gtb a b = false.
Proof.
  unfold F64.leb, F64.gtb, SFleb, SFltb. rewrite (SFcompare_flip a b).
  destruct (SFcompare a b) as [[]|]; cbn; congruence.
Qed.

Lemma gtb_not_leb (a b : float) : F64.gtb a b = true -> F64.leb a b = false.
Proof.
  intros G. destruct (F64.leb a b) eqn:L; [|reflexivity].
  apply leb_not_gtb in L. congruence.
Qed.

Lemma eqb_not_gtb (a b : float) : F64.eqb a b = true -> F64.gtb a b = false.
Proof.
  unfold F64.eqb, F64.gtb, SFeqb, SFltb. rewrite (SFcompare_flip a b).
  destruct (SFcompare a b) as [[]|]; cbn; congruence.
Qed.

(** ** Running the monad *)

Ltac exec :=
  cbv [mbind M_bind bind mret M_ret ret raise get modify log getitem liftR];
  cbn [fst snd].

Ltac tool_simpl :=
  cbn [infile outfile telescopes geoms amp_cut dist_cut tail_cut source output
       rng calls set_geoms set_output set_rng set_calls fst snd] in *.

Section Properties.
Context {collab : Collaborators}.

Lemma preselect_None (tel_id : Z) (st : Tool) :
  preselect None tel_id st = (Ok false, st).
Proof. reflexivity. Qed.

Lemma preselect_Some (h : Moments.t) (tel_id : Z) (st : Tool)
    (g : CameraGeometry) (amp : Z) (dcut : float) :
  geoms st !! tel_id = Some g ->
  amp_cut st !! cam_id g = Some amp ->
  dist_cut st !! cam_id g = Some dcut ->
  preselect (Some h) tel_id st = (Ok (cuts_pass h amp dcut), st).
Proof.
  intros Hg Ha Hd. unfold preselect, cuts_pass, centroid_dist. exec.
  rewrite Hg. cbn. rewrite Ha. cbn.
  destruct (F64.gtb (Moments.size h) (F64.of_Z amp)); [|reflexivity].
  rewrite Hd. cbn.
  destruct (F64.ltb _ dcut); [|reflexivity].
  destruct (F64.gtb (Moments.width h) F64.zero); reflexivity.
Qed.

(** [preselect] never writes to the tool *)
Lemma preselect_state (h : option Moments.t) (tel_id : Z) (st : Tool) :
  snd (preselect h tel_id st) = st.
Proof.
  destruct h as [h|]; [|reflexivity]. unfold preselect. exec.
  repeat case_match; simplify_eq; reflexivity.
Qed.

(** C2. The selector returns False when the moments are absent; when they
    are present and the telescope's camera type has its cuts, it returns
    True exactly when size is strictly above the amplitude cut, the radial
    centroid distance sqrt(cen_x^2 + cen_y^2) is strictly below the distance
    cut and width is strictly positive; an image of width == 0 is rejected
    whatever its size and distance. *)
Theorem preselect_decision (h : Moments.t) (tel_id : Z) (st : Tool)
    (g : CameraGeometry) (amp : Z) (dcut : float)
    (Hg : geoms st !! tel_id = Some g)
    (Ha : amp_cut st !! cam_id g = Some amp)
    (Hd : dist_cut st !! cam_id g = Some dcut) :
  preselect None tel_id st = (Ok false, st) /\
  (exists b : bool,
      preselect (Some h) tel_id st = (Ok b, st) /\
      (b = true <->
       F64.gtb (Moments.size h) (F64.of_Z amp) = true /\
       F64.ltb (F64.sqrt (F64.add (F64.mul (Moments.cen_x h) (Moments.cen_x h))
                                  (F64.mul (Moments.cen_y h) (Moments.cen_y h))))
               dcut = true /\
       F64.gtb (Moments.width h) F64.zero = true)) /\
  (F64.eqb (Moments.width h) F64.zero = true ->
   preselect (Some h) tel_id st = (Ok false, st)).
Proof.
  split; [reflexivity|]. rewrite (preselect_Some h tel_id st g amp dcut Hg Ha Hd).
  split.
  - eexists; split; [reflexivity|]. unfold cuts_pass, centroid_dist.
    rewrite !andb_true_iff. tauto.
  - intros W. apply eqb_not_gtb in W. unfold cuts_pass. rewrite W.
    rewrite andb_false_r. reflexivity.
Qed.

(** C9. Selection is monotone in size: with the centroid inside the
    distance cut and a positive width, every size at or below the amplitude
    cut is rejected and every size strictly above it is accepted, so raising
    the size past the cut turns the rejection into an acceptance. *)
Theorem preselect_monotone_in_size (h : Moments.t) (tel_id : Z) (st : Tool)
    (g : CameraGeometry) (amp : Z) (dcut : float) (lo hi : float)
    (Hg : geoms st !! tel_id = Some g)
    (Ha : amp_cut st !! cam_id g = Some amp)
    (Hd : dist_cut st !! cam_id g = Some dcut)
    (Hdist : F64.ltb (centroid_dist h) dcut = true)
    (Hwidth : F64.gtb (Moments.width h) F64.zero = true)
    (Hlo : F64.leb lo (F64.of_Z amp) = true)
    (Hhi : F64.gtb hi (F64.of_Z amp) = true) :
  preselect (Some (with_size lo h)) tel_id st = (Ok false, st) /\
  preselect (Some (with_size hi h)) tel_id st = (Ok true, st).
Proof.
  rewrite (preselect_Some (with_size lo h) tel_id st g amp dcut Hg Ha Hd).
  rewrite (preselect_Some (with_size hi h) tel_id st g amp dcut Hg Ha Hd).
  unfold cuts_pass, centroid_dist in *. cbn [with_size Moments.size Moments.cen_x
    Moments.cen_y Moments.width].
  rewrite (leb_not_gtb _ _ Hlo), Hhi, Hdist, Hwidth. split; reflexivity.
Qed.

(** ** One iteration of the telescope loop *)

Lemma preselect_select_cuts (m : Moments.t) (tel_id : Z) (st : Tool) (g : CameraGeometry) :
  geoms st !! tel_id = Some g ->
  preselect (Some m) tel_id st = (select_cuts st g m, st).
Proof.
  intros Hg. unfold preselect, select_cuts, centroid_dist. exec. rewrite Hg.
  destruct (amp_cut st !! cam_id g); [|reflexivity].
  destruct (F64.gtb (Moments.size m) _); [|reflexivity].
  destruct (dist_cut st !! cam_id g); [|reflexivity].
  destruct (F64.ltb _ _), (F64.gtb _ _); reflexivity.
Qed.

Ltac crunch :=
  repeat (exec; tool_simpl;
    match goal with
    | |- context [match ?m !! ?k with _ => _ end] => destruct (m !! k) eqn:?
    | |- context [match hillas_parameters ?a ?b ?c with _ => _ end] =>
        destruct (hillas_parameters a b c) as [?|[]] eqn:?
    | |- context [preselect (Some ?m) ?t ?s] =>
        erewrite (preselect_select_cuts m t s)
          by (tool_simpl; first [eassumption | apply lookup_insert_eq]);
        unfold select_cuts
    | |- context [if ?b then _ else _] => destruct b eqn:?
    end).

Lemma process_telescope_outcome (event : Event) (ap : HorizonFrame) (tel_id : Z)
    (d : Dicts) (st : Tool) :
  process_telescope event ap tel_id d st =
  (outcome_result (fst (reduction st event ap tel_id)) event ap tel_id
     (tel_geometry st event tel_id) d,
   tool_after st event tel_id (snd (reduction st event ap tel_id))).
Proof.
  unfold process_telescope, reduction, tool_after, tel_geometry, guess_calls.
  unfold try_except_hillas, call_hillas, dilate_times, outcome_result, saved, nominal_pixels.
  destruct st as [i o t g a dc tc s out r c]. exec; tool_simpl.
  destruct (g !! tel_id) as [geom|] eqn:Hg; exec; tool_simpl;
    rewrite ?Hg, ?lookup_insert_eq; crunch.
  all: exec; tool_simpl; rewrite ?(insert_id _ _ _ Hg), <- ?app_assoc, ?app_nil_r;
    cbn [app]; tool_simpl; reflexivity.
Qed.

Lemma geoms_tool_after st event tel_id cs :
  geoms (tool_after st event tel_id cs) = <[tel_id := tel_geometry st event tel_id]> (geoms st).
Proof. reflexivity. Qed.

Lemma calls_tool_after st event tel_id cs :
  calls (tool_after st event tel_id cs) = calls st ++ guess_calls st event tel_id ++ cs.
Proof. reflexivity. Qed.

Lemma tel_geometry_cached st event tel_id :
  geoms (tool_after st event tel_id []) !! tel_id = Some (tel_geometry st event tel_id).
Proof. rewrite geoms_tool_after. apply lookup_insert_eq. Qed.

(** entries of the registry survive an iteration *)
Lemma geoms_tool_after_subseteq st event tel_id cs :
  geoms st ⊆ geoms (tool_after st event tel_id cs).
Proof.
  rewrite geoms_tool_after. unfold tel_geometry.
  destruct (geoms st !! tel_id) as [g|] eqn:Hg.
  - rewrite (insert_id _ _ _ Hg). reflexivity.
  - apply insert_subseteq, Hg.
Qed.

Lemma agree_refl tel_id st : agree tel_id st st.
Proof. repeat split. Qed.

Lemma agree_trans tel_id st1 st2 st3 :
  agree tel_id st1 st2 -> agree tel_id st2 st3 -> agree tel_id st1 st3.
Proof. unfold agree. intros (?&?&?&?) (?&?&?&?). repeat split; congruence. Qed.

Lemma agree_tool_after tel_id other st event cs :
  tel_id <> other -> agree other st (tool_after st event tel_id cs).
Proof.
  intros Hne. repeat split. rewrite geoms_tool_after.
  symmetry. apply lookup_insert_ne, Hne.
Qed.

Lemma tel_geometry_agree tel_id st st' event :
  agree tel_id st st' -> tel_geometry st event tel_id = tel_geometry st' event tel_id.
Proof. intros (Hg&_). unfold tel_geometry. rewrite Hg. reflexivity. Qed.

Lemma reduction_agree tel_id st st' event ap :
  agree tel_id st st' -> reduction st event ap tel_id = reduction st' event ap tel_id.
Proof.
  intros Hag. unfold reduction, select_cuts.
  rewrite (tel_geometry_agree _ _ _ event Hag).
  destruct Hag as (_&->&->&->). reflexivity.
Qed.

Lemma accepts_agree tel_id st st' event ap :
  agree tel_id st st' -> accepts st event ap tel_id = accepts st' event ap tel_id.
Proof. intros Hag. unfold accepts. rewrite (reduction_agree _ _ _ _ _ Hag). reflexivity. Qed.

(** what one iteration does to the [image] dictionary *)
Lemma process_telescope_image event ap tel_id d st d' st' :
  process_telescope event ap tel_id d st = (Ok d', st') ->
  dom (image d') =
  (if accepts st event ap tel_id then {[tel_id]} else ∅) ∪ dom (image d).
Proof.
  rewrite process_telescope_outcome. unfold accepts.
  destruct (fst (reduction st event ap tel_id)); cbn [outcome_result fst];
    intros Heq; try discriminate; injection Heq as Hd _; subst d'.
  1-2: set_solver.
  cbn [saved image]. rewrite dom_insert_L. reflexivity.
Qed.

Lemma process_telescope_state event ap tel_id d st :
  snd (process_telescope event ap tel_id d st) =
  tool_after st event tel_id (snd (reduction st event ap tel_id)).
Proof. rewrite process_telescope_outcome. reflexivity. Qed.

(** ** The telescope loop *)

Lemma telescope_loop_cons event ap tel_id rest d st :
  telescope_loop event ap (tel_id :: rest) d st =
  match process_telescope event ap tel_id d st with
  | (Ok d', st') => telescope_loop event ap rest d' st'
  | (Raise e, st') => (Raise e, st')
  end.
Proof. reflexivity. Qed.

Lemma telescope_loop_agree event ap tels : forall d st r st' other,
  telescope_loop event ap tels d st = (r, st') ->
  other ∉ tels -> agree other st st'.
Proof.
  induction tels as [|tel_id rest IH]; intros d st r st' other.
  - intros [= _ <-] _. apply agree_refl.
  - rewrite telescope_loop_cons. intros Hrun Hnot.
    apply not_elem_of_cons in Hnot as [Hne Hnot].
    pose proof (process_telescope_state event ap tel_id d st) as Hst.
    destruct (process_telescope event ap tel_id d st) as [[d1|e] st1];
      cbn in Hst; subst st1.
    + eapply agree_trans; [|eapply IH; eassumption].
      apply agree_tool_after. intros ->. apply Hne. reflexivity.
    + injection Hrun as _ <-. apply agree_tool_after.
      intros ->. apply Hne. reflexivity.
Qed.

Lemma passing_agree event ap tels : forall st st',
  (forall t, t ∈ tels -> agree t st st') ->
  passing st event ap tels = passing st' event ap tels.
Proof.
  intros st st'. unfold passing.
  induction tels as [|t rest IH]; intros Hag; [reflexivity|].
  rewrite !filter_cons.
  rewrite (accepts_agree t st st' event ap (Hag t (list_elem_of_here _ _))).
  rewrite IH; [reflexivity|].
  intros t' Ht'. apply Hag. right. exact Ht'.
Qed.

Lemma telescope_loop_image event ap tels : forall d st d' st',
  NoDup tels ->
  telescope_loop event ap tels d st = (Ok d', st') ->
  dom (image d') = list_to_set (passing st event ap tels) ∪ dom (image d).
Proof.
  induction tels as [|tel_id rest IH]; intros d st d' st' Hnd.
  - intros [= <- _]. cbn. set_solver.
  - rewrite telescope_loop_cons. intros Hrun.
    apply NoDup_cons in Hnd as [Hnot Hnd].
    destruct (process_telescope event ap tel_id d st) as [[d1|e] st1] eqn:Hstep;
      [|discriminate].
    pose proof (process_telescope_image _ _ _ _ _ _ _ Hstep) as Himg.
    pose proof (process_telescope_state event ap tel_id d st) as Hst.
    rewrite Hstep in Hst. cbn in Hst.
    rewrite (IH d1 st1 d' st' Hnd Hrun), Himg.
    rewrite <- (passing_agree event ap rest st st1).
    + unfold passing at 2. rewrite filter_cons.
      destruct (decide (accepts st event ap tel_id = true)) as [Ha|Ha].
      * rewrite Ha. cbn. set_solver.
      * apply not_true_is_false in Ha. rewrite Ha. set_solver.
    + intros t Ht. subst st1. apply agree_tool_after. set_solver.
Qed.

Lemma NoDup_passing st event ap tels : NoDup tels -> NoDup (passing st event ap tels).
Proof. apply NoDup_filter. Qed.

(** the number of entries of [image] after the loop is the number of
    telescopes that passed *)
Lemma telescope_loop_size event ap tels st d' st' :
  NoDup tels ->
  telescope_loop event ap tels empty_dicts st = (Ok d', st') ->
  size (image d') = Datatypes.length (passing st event ap tels).
Proof.
  intros Hnd Hrun. rewrite <- size_dom.
  rewrite (telescope_loop_image _ _ _ _ _ _ _ Hnd Hrun).
  cbn [empty_dicts image]. rewrite dom_empty_L, (right_id_L ∅ (∪)).
  apply size_list_to_set, NoDup_passing, Hnd.
Qed.

(** ** The stereo block *)

Lemma stereo_run (event : Event) (ap : HorizonFrame) (d : Dicts) (st : Tool) :
  stereo event ap d st =
  (Ok tt,
   set_output (output st ++ [stereo_row event ap d st])
     (set_calls (calls st ++ stereo_calls event ap d st)
        (set_rng (snd (normal (snd (normal (rng st) (mc_core_x (mc event)) (F64.of_Z 25)))
                              (mc_core_y (mc event)) (F64.of_Z 25))) st))).
Proof.
  unfold stereo, scipy_random_normal, stereo_row, stereo_calls, shower_for_energy,
    properties_for_energy, set_core_x, set_core_y.
  destruct st as [i o t g a dc tc s out r c]. exec. tool_simpl.
  rewrite <- !app_assoc. reflexivity.
Qed.

Lemma reconstruct_event_unfold (event : Event) (st : Tool) :
  reconstruct_event event st =
  match telescope_loop event (array_pointing_of event) (tels_with_data event)
          empty_dicts st with
  | (Ok d, st1) =>
      if (1 <? size (image d))%nat
      then stereo event (array_pointing_of event) d st1
      else (Ok tt, st1)
  | (Raise e, st1) => (Raise e, st1)
  end.
Proof.
  unfold reconstruct_event. exec.
  destruct (telescope_loop _ _ _ _ _) as [[d|e] st1]; [|reflexivity].
  destruct (1 <? size (image d))%nat; reflexivity.
Qed.

Lemma count_app f cs1 cs2 : count f (cs1 ++ cs2) = (count f cs1 + count f cs2)%nat.
Proof. unfold count. rewrite List.filter_app, length_app. reflexivity. Qed.

Lemma telescope_loop_output event ap tels : forall d st,
  output (snd (telescope_loop event ap tels d st)) = output st.
Proof.
  induction tels as [|tel_id rest IH]; intros d st; [reflexivity|].
  rewrite telescope_loop_cons.
  pose proof (process_telescope_state event ap tel_id d st) as Hst.
  destruct (process_telescope event ap tel_id d st) as [[d1|e] st1];
    cbn in Hst; subst st1; [rewrite IH|]; reflexivity.
Qed.

(** C1. When the telescope loop of an event completes: the event proceeds
    to the stereo fit, to the energy estimate and to exactly one new output
    row if strictly more than one telescope passed reduction and selection;
    with no or one passing telescope nothing more is called, no row is
    written, and the event ends normally so that the run goes on. *)
Theorem multiplicity_gate (event : Event) (st : Tool) (d : Dicts) (st1 : Tool)
    (Hset : NoDup (tels_with_data event))
    (Hloop : telescope_loop event (array_pointing_of event) (tels_with_data event)
               empty_dicts st = (Ok d, st1)) :
  let n := Datatypes.length
             (passing st event (array_pointing_of event) (tels_with_data event)) in
  exists st' new,
    reconstruct_event event st = (Ok tt, st') /\
    calls st' = calls st1 ++ new /\
    ((1 < n)%nat ->
       count is_fit new = 1%nat /\ count is_energy new = 1%nat /\
       exists row, output st' = output st ++ [row] /\ NTELS row = Z.of_nat n) /\
    ((n <= 1)%nat ->
       count is_fit new = 0%nat /\ count is_energy new = 0%nat /\
       output st' = output st).
Proof.
  intros n. rewrite reconstruct_event_unfold, Hloop.
  pose proof (telescope_loop_size _ _ _ _ _ _ Hset Hloop) as Hsize. fold n in Hsize.
  pose proof (telescope_loop_output event (array_pointing_of event)
                (tels_with_data event) empty_dicts st) as Hout.
  rewrite Hloop in Hout. cbn [snd] in Hout.
  rewrite Hsize.
  destruct (1 <? n)%nat eqn:Hn.
  - apply Nat.ltb_lt in Hn. rewrite stereo_run.
    eexists _, (stereo_calls event (array_pointing_of event) d st1).
    split; [reflexivity|]. split; [reflexivity|]. split; [|lia].
    intros _. split; [reflexivity|]. split; [reflexivity|].
    eexists. split; [tool_simpl; rewrite Hout; reflexivity|].
    cbn. rewrite Hsize. reflexivity.
  - apply Nat.ltb_ge in Hn. exists st1, []. split; [reflexivity|].
    split; [rewrite app_nil_r; reflexivity|]. split; [lia|]. intros _.
    split; [reflexivity|]. split; [reflexivity|]. exact Hout.
Qed.

(** C4. For an event that passes the multiplicity gate, right after the
    stereo fit (and the projection of its core) two draws of the normal
    sampler, centred on the simulated core position with scale 25, replace
    the fitted core, and the shower with the replaced core is the one the
    energy estimator receives and whose energy goes into the output row. *)
Theorem core_overwritten_by_perturbed_truth (event : Event) (st : Tool) (d : Dicts)
    (st1 : Tool)
    (Hloop : telescope_loop event (array_pointing_of event) (tels_with_data event)
               empty_dicts st = (Ok d, st1))
    (Hgate : (1 < size (image d))%nat) :
  let ap := array_pointing_of event in
  let fit_result := fit_predict (hillas d) (inst event) (tel_phi d) (tel_theta d) in
  let draw_x := normal (rng st1) (mc_core_x (mc event)) (F64.of_Z 25) in
  let draw_y := normal (snd draw_x) (mc_core_y (mc event)) (F64.of_Z 25) in
  let shower := {| fit_alt := fit_alt fit_result; fit_az := fit_az fit_result;
                   core_x := fst draw_x; core_y := fst draw_y |} in
  exists st' row,
    reconstruct_event event st = (Ok tt, st') /\
    calls st' = calls st1 ++
      [CallFitPredict (hillas d);
       CallProjectToGround {| tx := core_x fit_result; ty := core_y fit_result;
                              pointing_direction := ap |};
       CallNormal (mc_core_x (mc event)) (F64.of_Z 25);
       CallNormal (mc_core_y (mc event)) (F64.of_Z 25);
       CallSetEventProperties (properties_for_energy ap d);
       CallEnergyPredict shower] /\
    output st' = output st1 ++ [row] /\
    RECO_EN row = energy (energy_predict (properties_for_energy ap d) shower).
Proof.
  intros ap fit_result draw_x draw_y shower.
  rewrite reconstruct_event_unfold, Hloop.
  apply Nat.ltb_lt in Hgate. rewrite Hgate, stereo_run.
  eexists _, _. split; [reflexivity|]. split; [reflexivity|].
  split; reflexivity.
Qed.

(** ** Failures of the moment computation *)

Lemma select_cuts_raise st geom m e :
  select_cuts st geom m = Raise e -> e = KeyError (KStr (cam_id geom)).
Proof.
  unfold select_cuts. repeat case_match; intros Heq; try discriminate;
    injection Heq as <-; reflexivity.
Qed.

Lemma reduction_never_hillas_error st event ap tel_id msg :
  fst (reduction st event ap tel_id) <> Fails (HillasParameterizationError msg).
Proof.
  unfold reduction.
  destruct (tail_cut st !! _); [|discriminate].
  destruct (hillas_parameters _ _ _) as [mc|[]]; try discriminate.
  destruct (hillas_parameters _ _ _) as [m|[]]; try discriminate.
  destruct (select_cuts st _ m) as [[]|e] eqn:Hcut; try discriminate.
  apply select_cuts_raise in Hcut. subst e. discriminate.
Qed.

Lemma telescope_loop_never_hillas_error event ap tels : forall d st msg,
  fst (telescope_loop event ap tels d st) <> Raise (HillasParameterizationError msg).
Proof.
  induction tels as [|tel_id rest IH]; intros d st msg; [discriminate|].
  rewrite telescope_loop_cons, process_telescope_outcome.
  pose proof (reduction_never_hillas_error st event ap tel_id msg) as Hnever.
  destruct (fst (reduction st event ap tel_id)) as [e| | |];
    cbn [outcome_result]; try apply IH.
  cbn. congruence.
Qed.

(** C6. When the moment computation of a telescope raises its
    parameterization error, at the camera-frame call or at the nominal-frame
    call, the iteration leaves every dictionary of the event as it was, the
    message is printed, the loop goes on with the remaining telescopes, and
    no telescope loop ever ends with that error. *)
Theorem hillas_failure_skips_telescope (event : Event) (ap : HorizonFrame)
    (tel_id : Z) (d : Dicts) (st : Tool) (tc : Z * Z) (msg : string)
    (Htc : tail_cut st !! cam_id (tel_geometry st event tel_id) = Some tc)
    (Hfail :
       let geom := tel_geometry st event tel_id in
       let pmt_signal := dl1_image event tel_id 0%nat in
       let img := mul_mask pmt_signal (tailcuts_clean geom pmt_signal (snd tc) (fst tc)) in
       let nom := nominal_pixels event ap tel_id geom in
       hillas_parameters (fst (pixel_pos (inst event) tel_id))
                         (snd (pixel_pos (inst event) tel_id)) img
         = Raise (HillasParameterizationError msg) \/
       (exists mc,
          hillas_parameters (fst (pixel_pos (inst event) tel_id))
                            (snd (pixel_pos (inst event) tel_id)) img = Ok mc /\
          hillas_parameters (fst nom) (snd nom) img
            = Raise (HillasParameterizationError msg))) :
  exists st' cs,
    process_telescope event ap tel_id d st = (Ok d, st') /\
    calls st' = calls st ++ cs ++ [Print msg] /\
    (forall rest, telescope_loop event ap (tel_id :: rest) d st
                  = telescope_loop event ap rest d st') /\
    (forall tels d0 st0 m,
        fst (telescope_loop event ap tels d0 st0)
        <> Raise (HillasParameterizationError m)).
Proof.
  cbv zeta in Hfail.
  assert (exists cs, reduction st event ap tel_id = (Skips msg, cs ++ [Print msg]))
    as [cs Hred].
  { unfold reduction. rewrite Htc. destruct Hfail as [Hcam|(mc&Hcam&Hnom)].
    - rewrite Hcam. eexists. reflexivity.
    - rewrite Hcam, Hnom. eexists. reflexivity. }
  assert (process_telescope event ap tel_id d st =
          (Ok d, tool_after st event tel_id (cs ++ [Print msg]))) as Hstep.
  { rewrite process_telescope_outcome, Hred. reflexivity. }
  eexists _, (guess_calls st event tel_id ++ cs).
  split; [exact Hstep|]. split.
  - rewrite calls_tool_after, <- !app_assoc. reflexivity.
  - split.
    + intros rest. rewrite telescope_loop_cons, Hstep. reflexivity.
    + intros tels d0 st0 m. apply telescope_loop_never_hillas_error.
Qed.

(** ** The geometry registry *)

Lemma write_once_refl st : write_once st st.
Proof. split; [auto|reflexivity]. Qed.

Lemma write_once_trans st1 st2 st3 :
  write_once st1 st2 -> write_once st2 st3 -> write_once st1 st3.
Proof.
  intros [Hk1 Hc1] [Hk2 Hc2]. split; [auto|].
  intros tel_id. specialize (Hc1 tel_id). specialize (Hc2 tel_id). lia.
Qed.

Lemma write_once_tool_after st event tel_id cs :
  (forall t, count (is_guess t) cs = 0%nat) ->
  write_once st (tool_after st event tel_id cs).
Proof.
  intros Hcs. split.
  - intros t g Hg.
    eapply lookup_weaken; [exact Hg|apply geoms_tool_after_subseteq].
  - intros t. rewrite calls_tool_after, !count_app, Hcs.
    unfold cached, guess_calls, tel_geometry. rewrite geoms_tool_after.
    destruct (decide (tel_id = t)) as [->|Hne].
    + rewrite lookup_insert_eq. destruct (geoms st !! t); cbn; [lia|].
      unfold count. cbn. rewrite Z.eqb_refl. cbn. lia.
    + rewrite lookup_insert_ne by exact Hne.
      destruct (geoms st !! tel_id); cbn; [lia|].
      unfold count. cbn. apply Z.eqb_neq in Hne. rewrite Hne. cbn. lia.
Qed.

Lemma reduction_no_guess st event ap tel_id t :
  count (is_guess t) (snd (reduction st event ap tel_id)) = 0%nat.
Proof.
  unfold reduction. repeat case_match; reflexivity.
Qed.

Lemma telescope_loop_write_once event ap tels : forall d st,
  write_once st (snd (telescope_loop event ap tels d st)).
Proof.
  induction tels as [|tel_id rest IH]; intros d st; [apply write_once_refl|].
  rewrite telescope_loop_cons.
  pose proof (process_telescope_state event ap tel_id d st) as Hst.
  assert (write_once st (snd (process_telescope event ap tel_id d st))) as Hw.
  { rewrite Hst. apply write_once_tool_after. intros t. apply reduction_no_guess. }
  destruct (process_telescope event ap tel_id d st) as [[d1|e] st1]; cbn [snd] in *.
  - eapply write_once_trans; [exact Hw|apply IH].
  - exact Hw.
Qed.

Lemma reconstruct_event_write_once event st :
  write_once st (snd (reconstruct_event event st)).
Proof.
  rewrite reconstruct_event_unfold.
  pose proof (telescope_loop_write_once event (array_pointing_of event)
                (tels_with_data event) empty_dicts st) as Hw.
  destruct (telescope_loop _ _ _ _ _) as [[d|e] st1]; cbn [snd] in *; [|exact Hw].
  destruct (1 <? size (image d))%nat; [|exact Hw].
  rewrite stereo_run. cbn [snd].
  eapply write_once_trans; [exact Hw|]. split.
  - intros t g. tool_simpl. auto.
  - intros t. unfold cached. tool_simpl. rewrite count_app.
    unfold stereo_calls, count. cbn. lia.
Qed.

Lemma event_loop_cons event rest st :
  event_loop (event :: rest) st =
  match reconstruct_event (dl1_calibrate (dl0_reduce (r1_calibrate event))) st with
  | (Ok _, st') => event_loop rest st'
  | (Raise e, st') => (Raise e, st')
  end.
Proof.
  cbn [event_loop]. unfold calibrate_event. exec.
  destruct (reconstruct_event _ st) as [[[]|e] st']; reflexivity.
Qed.

Lemma event_loop_write_once events : forall st,
  write_once st (snd (event_loop events st)).
Proof.
  induction events as [|event rest IH]; intros st; [apply write_once_refl|].
  rewrite event_loop_cons.
  pose proof (reconstruct_event_write_once
                (dl1_calibrate (dl0_reduce (r1_calibrate event))) st) as Hw.
  destruct (reconstruct_event _ st) as [[[]|e] st']; cbn [snd] in *.
  - eapply write_once_trans; [exact Hw|apply IH].
  - exact Hw.
Qed.

(** [setup], run on a tool whose telescope list is [tels] *)
Lemma setup_run (st : Tool) :
  setup st =
  let st0 :=
    {| infile := infile st; outfile := outfile st; telescopes := telescopes st;
       geoms := ∅; amp_cut := amp_cut_table; dist_cut := dist_cut_table;
       tail_cut := tail_cut_table; source := source st; output := output st;
       rng := rng st; calls := calls st ++ [Print (infile st)] |} in
  match telescopes st with
  | None => (Raise (TypeError "object of type 'NoneType' has no len()"), st0)
  | Some l =>
      let allowed := if (Datatypes.length l <? 2)%nat then None else Some l in
      (Ok tt,
       {| infile := infile st; outfile := outfile st; telescopes := allowed;
          geoms := ∅; amp_cut := amp_cut_table; dist_cut := dist_cut_table;
          tail_cut := tail_cut_table;
          source := hessio_event_source (infile st) allowed;
          output := []; rng := rng st;
          calls := calls st ++ [Print (infile st);
                                CallEventSource (infile st) allowed] |})
  end.
Proof.
  destruct st as [i o t g a dc tc s out r c]. unfold setup. exec. tool_simpl.
  destruct t as [l|]; exec; tool_simpl; [|reflexivity].
  destruct (Datatypes.length l <? 2)%nat; exec; tool_simpl;
    rewrite <- app_assoc; reflexivity.
Qed.

(** ** Unregistered camera types *)

Lemma cut_tables_same_keys (cam : string) :
  amp_cut_table !! cam = None \/ dist_cut_table !! cam = None \/
  tail_cut_table !! cam = None ->
  tail_cut_table !! cam = None.
Proof.
  rewrite <- !not_elem_of_dom. unfold amp_cut_table, dist_cut_table, tail_cut_table.
  rewrite !dom_insert_L, !dom_empty_L. tauto.
Qed.

Lemma process_telescope_unregistered event ap tel_id d st :
  tail_cut st !! cam_id (tel_geometry st event tel_id) = None ->
  process_telescope event ap tel_id d st =
  (Raise (KeyError (KStr (cam_id (tel_geometry st event tel_id)))),
   tool_after st event tel_id []).
Proof.
  intros Hnone. rewrite process_telescope_outcome. unfold reduction.
  rewrite Hnone. reflexivity.
Qed.

Lemma telescope_loop_unregistered event ap tel_id post pre : forall d st,
  tel_id ∉ pre ->
  tail_cut st !! cam_id (tel_geometry st event tel_id) = None ->
  exists e st',
    telescope_loop event ap (pre ++ tel_id :: post) d st = (Raise e, st') /\
    (forall d1 st1, telescope_loop event ap pre d st = (Ok d1, st1) ->
                    e = KeyError (KStr (cam_id (tel_geometry st event tel_id)))).
Proof.
  induction pre as [|other pre IH]; intros d st Hnot Hnone.
  - cbn [app]. rewrite telescope_loop_cons.
    rewrite (process_telescope_unregistered _ _ _ _ _ Hnone).
    eexists _, _. split; [reflexivity|]. intros; reflexivity.
  - apply not_elem_of_cons in Hnot as [Hne Hnot].
    rewrite <- app_comm_cons, !telescope_loop_cons.
    pose proof (process_telescope_state event ap other d st) as Hst.
    destruct (process_telescope event ap other d st) as [[d1|e] st1];
      cbn [snd] in Hst.
    + assert (agree tel_id st st1) as Hag.
      { subst st1. apply agree_tool_after. intros ->. apply Hne. reflexivity. }
      rewrite (tel_geometry_agree _ _ _ event Hag).
      apply IH; [exact Hnot|].
      rewrite <- (tel_geometry_agree _ _ _ event Hag).
      destruct Hag as (_&<-&_). exact Hnone.
    + eexists _, _. split; [reflexivity|]. intros ? ? [=].
Qed.

(** C8. With the cut tables of setup: when a telescope of an event has a
    camera type without an entry in the amplitude-cut, distance-cut or
    tail-cut table, the event ends with an exception, which is the KeyError
    of that camera type unless an earlier telescope of the event already
    raised; the exception leaves the event loop, so no later event is
    processed and no row is written for the event. *)
Theorem unregistered_camera_is_fatal (event0 : Event) (rest : list Event)
    (st : Tool) (pre post : list Z) (tel_id : Z)
    (Htab : amp_cut st = amp_cut_table /\ dist_cut st = dist_cut_table /\
            tail_cut st = tail_cut_table)
    (Hsplit : tels_with_data (dl1_calibrate (dl0_reduce (r1_calibrate event0)))
              = pre ++ tel_id :: post)
    (Hfirst : tel_id ∉ pre)
    (Hunreg :
       let cam := cam_id (tel_geometry st
                    (dl1_calibrate (dl0_reduce (r1_calibrate event0))) tel_id) in
       amp_cut st !! cam = None \/ dist_cut st !! cam = None \/
       tail_cut st !! cam = None) :
  let event := dl1_calibrate (dl0_reduce (r1_calibrate event0)) in
  exists e st',
    reconstruct_event event st = (Raise e, st') /\
    event_loop (event0 :: rest) st = (Raise e, st') /\
    output st' = output st /\
    (forall d1 st1,
        telescope_loop event (array_pointing_of event) pre empty_dicts st = (Ok d1, st1) ->
        e = KeyError (KStr (cam_id (tel_geometry st event tel_id)))).
Proof.
  intros event. cbv zeta in Hunreg. fold event in Hsplit, Hunreg.
  destruct Htab as (Ha&Hd&Ht). rewrite Ha, Hd, Ht in Hunreg.
  apply cut_tables_same_keys in Hunreg. rewrite <- Ht in Hunreg.
  destruct (telescope_loop_unregistered event (array_pointing_of event) tel_id post pre
              empty_dicts st Hfirst Hunreg) as (e&st'&Hloop&Hkey).
  rewrite <- Hsplit in Hloop.
  assert (reconstruct_event event st = (Raise e, st')) as Hrec.
  { rewrite reconstruct_event_unfold, Hloop. reflexivity. }
  exists e, st'. split; [exact Hrec|]. split.
  - rewrite event_loop_cons. fold event. rewrite Hrec. reflexivity.
  - split; [|exact Hkey].
    pose proof (telescope_loop_output event (array_pointing_of event)
                  (tels_with_data event) empty_dicts st) as Hout.
    rewrite Hloop in Hout. exact Hout.
Qed.

(** ** The telescope filter of [setup] *)

(** C10 (amended). When the configured telescope list has fewer than two
    entries, setup replaces it by None and opens the event source without a
    telescope restriction; whatever the configuration, the list that setup
    keeps and hands to the event source is None or has at least two entries.
    The test counts entries, not distinct telescopes. *)
Theorem setup_drops_short_telescope_list (st : Tool) (l : list Z)
    (Hconf : telescopes st = Some l)
    (Hshort : (Datatypes.length l < 2)%nat) :
  (exists st',
      setup st = (Ok tt, st') /\
      telescopes st' = None /\
      source st' = hessio_event_source (infile st) None /\
      calls st' = calls st ++ [Print (infile st); CallEventSource (infile st) None]) /\
  (forall st0,
      (forall l0, telescopes (snd (setup st0)) = Some l0 ->
                  (2 <= Datatypes.length l0)%nat) /\
      (forall file allowed,
          CallEventSource file allowed ∈
            drop (Datatypes.length (calls st0)) (calls (snd (setup st0))) ->
          allowed = telescopes (snd (setup st0)) /\
          (allowed = None \/
           exists l0, allowed = Some l0 /\ (2 <= Datatypes.length l0)%nat))).
Proof.
  split.
  - rewrite setup_run, Hconf. apply Nat.ltb_lt in Hshort. cbn zeta.
    rewrite Hshort. eexists. repeat split; reflexivity.
  - intros st0. rewrite setup_run.
    destruct (telescopes st0) as [l0|] eqn:Hl0; cbn zeta; cbn [snd telescopes calls];
      rewrite drop_app_length.
    + destruct (Datatypes.length l0 <? 2)%nat eqn:Hlen.
      * split; [discriminate|]. intros file allowed Hin.
        apply elem_of_cons in Hin as [Heq|Hin]; [discriminate|].
        apply elem_of_cons in Hin as [Heq|Hin]; [|inversion Hin].
        injection Heq as _ ->. split; [reflexivity|left; reflexivity].
      * apply Nat.ltb_ge in Hlen. split.
        -- intros l1 [= <-]. exact Hlen.
        -- intros file allowed Hin.
           apply elem_of_cons in Hin as [Heq|Hin]; [discriminate|].
           apply elem_of_cons in Hin as [Heq|Hin]; [|inversion Hin].
           injection Heq as _ ->. split; [reflexivity|].
           right. exists l0. split; [reflexivity|exact Hlen].
    + split; [rewrite ?Hl0; discriminate|].
      intros file allowed Hin.
      apply elem_of_cons in Hin as [Heq|Hin]; [discriminate|]. inversion Hin.
Qed.

(** ** The order of cleaning, moments and dilation *)

Lemma select_cuts_pass st geom m amp dcut :
  amp_cut st !! cam_id geom = Some amp ->
  dist_cut st !! cam_id geom = Some dcut ->
  select_cuts st geom m = Ok (cuts_pass m amp dcut).
Proof.
  intros Ha Hd. unfold select_cuts, cuts_pass. rewrite Ha, Hd.
  destruct (F64.gtb (Moments.size m) _); reflexivity.
Qed.

(** C3 (amended). For a telescope whose camera type has its thresholds and
    whose two moment computations succeed, the iteration first builds the
    cleaning mask, then computes the moments over the camera positions and
    over the nominal positions, both masked by the cleaning mask as it is
    before any dilation; the mask is dilated, exactly twice, only afterwards
    and only when the telescope passes the selection, and the moments saved
    for it are the ones computed before. *)
Theorem moments_precede_dilation (event : Event) (ap : HorizonFrame) (tel_id : Z)
    (d : Dicts) (st : Tool) (tc : Z * Z) (mc m : Moments.t) (amp : Z) (dcut : float)
    (Htc : tail_cut st !! cam_id (tel_geometry st event tel_id) = Some tc)
    (Ha : amp_cut st !! cam_id (tel_geometry st event tel_id) = Some amp)
    (Hd : dist_cut st !! cam_id (tel_geometry st event tel_id) = Some dcut)
    (Hcam : hillas_parameters (fst (pixel_pos (inst event) tel_id))
              (snd (pixel_pos (inst event) tel_id))
              (mul_mask (dl1_image event tel_id 0%nat)
                 (tailcuts_clean (tel_geometry st event tel_id)
                    (dl1_image event tel_id 0%nat) (snd tc) (fst tc))) = Ok mc)
    (Hnom : hillas_parameters
              (fst (nominal_pixels event ap tel_id (tel_geometry st event tel_id)))
              (snd (nominal_pixels event ap tel_id (tel_geometry st event tel_id)))
              (mul_mask (dl1_image event tel_id 0%nat)
                 (tailcuts_clean (tel_geometry st event tel_id)
                    (dl1_image event tel_id 0%nat) (snd tc) (fst tc))) = Ok m) :
  let geom := tel_geometry st event tel_id in
  let pmt_signal := dl1_image event tel_id 0%nat in
  let nom := nominal_pixels event ap tel_id geom in
  let mask := tailcuts_clean geom pmt_signal (snd tc) (fst tc) in
  calls (snd (process_telescope event ap tel_id d st)) =
    calls st ++ guess_calls st event tel_id ++
    [CallTailcutsClean geom pmt_signal (snd tc) (fst tc);
     CallHillas (fst (pixel_pos (inst event) tel_id))
                (snd (pixel_pos (inst event) tel_id)) (mul_mask pmt_signal mask);
     CallHillas (fst nom) (snd nom) (mul_mask pmt_signal mask)] ++
    (if cuts_pass m amp dcut
     then [CallDilate geom mask; CallDilate geom (dilate geom mask)]
     else []) /\
  fst (process_telescope event ap tel_id d st) =
    Ok (if cuts_pass m amp dcut
        then saved event ap tel_id geom mc m (dilate geom (dilate geom mask)) d
        else d).
Proof.
  intros geom pmt_signal nom mask. subst geom pmt_signal nom mask.
  rewrite process_telescope_outcome. cbn [fst snd]. rewrite calls_tool_after.
  unfold reduction. cbv zeta. rewrite Htc, Hcam, Hnom.
  rewrite (select_cuts_pass st _ m amp dcut Ha Hd).
  destruct (cuts_pass m amp dcut); cbn [fst snd outcome_result];
    rewrite ?app_nil_r; split; reflexivity.
Qed.

End Properties.

(** * The properties on the small array *)

(** the LST telescope with size 150, centroid at 1 degree, width 0.05 *)
Lemma preselect_decision_witness :
  preselect None 1 DemoRun.seen_one = (Ok false, DemoRun.seen_one) /\
  (exists b : bool,
      preselect (Some DemoRun.bright) 1 DemoRun.seen_one = (Ok b, DemoRun.seen_one) /\
      (b = true <->
       F64.gtb (Moments.size DemoRun.bright) (F64.of_Z 100) = true /\
       F64.ltb (F64.sqrt (F64.add
                  (F64.mul (Moments.cen_x DemoRun.bright) (Moments.cen_x DemoRun.bright))
                  (F64.mul (Moments.cen_y DemoRun.bright) (Moments.cen_y DemoRun.bright))))
               (F64.of_Z 2) = true /\
       F64.gtb (Moments.width DemoRun.bright) F64.zero = true)) /\
  (F64.eqb (Moments.width DemoRun.bright) F64.zero = true ->
   preselect (Some DemoRun.bright) 1 DemoRun.seen_one = (Ok false, DemoRun.seen_one)).
Proof.
  apply (preselect_decision DemoRun.bright 1 DemoRun.seen_one DemoRun.lst_geometry
           100 (F64.of_Z 2)); vm_compute; reflexivity.
Defined.

(** the same image with size 100, at the cut, and 101, above it *)
Lemma preselect_monotone_in_size_witness :
  preselect (Some (with_size (F64.of_Z 100) DemoRun.bright)) 1 DemoRun.seen_one
    = (Ok false, DemoRun.seen_one) /\
  preselect (Some (with_size (F64.of_Z 101) DemoRun.bright)) 1 DemoRun.seen_one
    = (Ok true, DemoRun.seen_one).
Proof.
  apply (preselect_monotone_in_size DemoRun.bright 1 DemoRun.seen_one
           DemoRun.lst_geometry 100 (F64.of_Z 2)); vm_compute; reflexivity.
Defined.

(** three telescopes with data, two of which pass: one row *)
Lemma multiplicity_gate_witness :
  let n := Datatypes.length
             (@passing Demo.demo_collaborators Demo.ready DemoRun.all_three
                (array_pointing_of DemoRun.all_three)
                (tels_with_data DemoRun.all_three)) in
  exists st' new,
    @reconstruct_event Demo.demo_collaborators DemoRun.all_three Demo.ready
      = (Ok tt, st') /\
    calls st' = calls (snd DemoRun.loop_result) ++ new /\
    ((1 < n)%nat ->
       count is_fit new = 1%nat /\ count is_energy new = 1%nat /\
       exists row, output st' = output Demo.ready ++ [row] /\ NTELS row = Z.of_nat n) /\
    ((n <= 1)%nat ->
       count is_fit new = 0%nat /\ count is_energy new = 0%nat /\
       output st' = output Demo.ready).
Proof.
  apply (@multiplicity_gate Demo.demo_collaborators DemoRun.all_three Demo.ready
           DemoRun.loop_dicts (snd DemoRun.loop_result)).
  - cbn. repeat (constructor; [set_solver|]). constructor.
  - vm_compute. reflexivity.
Defined.

(** on the small array telescopes 1 and 2 pass, telescope 3 does not *)
Example demo_two_telescopes_pass :
  @passing Demo.demo_collaborators Demo.ready DemoRun.all_three
    (array_pointing_of DemoRun.all_three) (tels_with_data DemoRun.all_three) = [1; 2].
Proof. vm_compute. reflexivity. Qed.

(** telescope 1: moments on [200, 0], then the mask grows to both pixels *)
Lemma moments_precede_dilation_witness :
  let geom := DemoRun.lst_geometry in
  let pmt_signal := [F64.of_Z 200; F64.of_Z 5] in
  let px := [F64.of_Z 0; F64.of_Z 1] in
  let py := [F64.of_Z 0; F64.of_Z 0] in
  let run := @process_telescope Demo.demo_collaborators DemoRun.all_three
               DemoRun.pointing 1 empty_dicts Demo.ready in
  calls (snd run) =
    [CallGuess 1 px py (F64.of_Z 28);
     CallTailcutsClean geom pmt_signal 16 8;
     CallHillas px py [F64.of_Z 200; F64.zero];
     CallHillas px py [F64.of_Z 200; F64.zero];
     CallDilate geom [true; false];
     CallDilate geom [true; true]] /\
  exists d, fst run = Ok d /\ image d = {[ 1 := [F64.of_Z 200; F64.of_Z 5] ]}.
Proof.
  destruct (@moments_precede_dilation Demo.demo_collaborators DemoRun.all_three
              DemoRun.pointing 1 empty_dicts Demo.ready (8, 16)
              {| Moments.size := F64.of_Z 200; Moments.cen_x := F64.zero;
                 Moments.cen_y := F64.zero; Moments.length := F64.dec1 0 2;
                 Moments.width := F64.dec1 0 1; Moments.psi := F64.zero |}
              {| Moments.size := F64.of_Z 200; Moments.cen_x := F64.zero;
                 Moments.cen_y := F64.zero; Moments.length := F64.dec1 0 2;
                 Moments.width := F64.dec1 0 1; Moments.psi := F64.zero |}
              100 (F64.of_Z 2))
    as [Hcalls Hres]; try (vm_compute; reflexivity).
  split.
  - rewrite Hcalls. vm_compute. reflexivity.
  - eexists. split; [exact Hres|]. vm_compute. reflexivity.
Defined.

(** C3, as the specification words it, fails on telescope 1 of the small
    array: the calls of the iteration are not cleaning, two dilations and
    then the two moment computations over the dilated mask. The moments are
    computed on the image [200, 0] left by the cleaning mask, before the
    mask is dilated to cover the second pixel. *)
Lemma reducer_not_as_specified :
  calls (snd (@process_telescope Demo.demo_collaborators DemoRun.all_three
                DemoRun.pointing 1 empty_dicts Demo.ready))
  <> calls Demo.ready
     ++ @guess_calls Demo.ready DemoRun.all_three 1
     ++ @reducer_as_specified Demo.demo_collaborators Demo.ready DemoRun.all_three
          DemoRun.pointing 1.
Proof. vm_compute. intros Heq. discriminate Heq. Qed.

(** a telescope that fails the selection is not dilated at all *)
Example rejected_telescope_not_dilated :
  calls (snd (@process_telescope Demo.demo_collaborators
                (Demo.demo_event [2] (fun _ => [F64.of_Z 60; F64.of_Z 1; F64.of_Z 1]))
                DemoRun.pointing 2 empty_dicts Demo.ready))
  = [CallGuess 2 [F64.of_Z 0; F64.of_Z 1; F64.of_Z 2]
               [F64.of_Z 0; F64.of_Z 0; F64.of_Z 0] (F64.of_Z 28);
     CallTailcutsClean
       (Demo.demo_guess [F64.of_Z 0; F64.of_Z 1; F64.of_Z 2]
                        [F64.of_Z 0; F64.of_Z 0; F64.of_Z 0] (F64.of_Z 28))
       [F64.of_Z 60; F64.of_Z 1; F64.of_Z 1] 14 7;
     CallHillas [F64.of_Z 0; F64.of_Z 1; F64.of_Z 2]
                [F64.of_Z 0; F64.of_Z 0; F64.of_Z 0]
                [F64.of_Z 60; F64.zero; F64.zero];
     CallHillas [F64.of_Z 0; F64.of_Z 1; F64.of_Z 2]
                [F64.of_Z 0; F64.of_Z 0; F64.of_Z 0]
                [F64.of_Z 60; F64.zero; F64.zero]].
Proof. vm_compute. reflexivity. Qed.

(** the draws around the simulated core (5, 6) reach the energy estimator *)
Lemma core_overwritten_by_perturbed_truth_witness :
  let shower := {| fit_alt := F64.of_Z 70; fit_az := F64.of_Z 180;
                   core_x := F64.of_Z 5; core_y := F64.of_Z 7 |} in
  let props := @properties_for_energy (array_pointing_of DemoRun.all_three)
                 DemoRun.loop_dicts in
  exists st' row,
    @reconstruct_event Demo.demo_collaborators DemoRun.all_three Demo.ready
      = (Ok tt, st') /\
    calls st' = calls (snd DemoRun.loop_result) ++
      [CallFitPredict (hillas DemoRun.loop_dicts);
       CallProjectToGround {| tx := F64.of_Z 10; ty := F64.of_Z 20;
                              pointing_direction := array_pointing_of DemoRun.all_three |};
       CallNormal (F64.of_Z 5) (F64.of_Z 25);
       CallNormal (F64.of_Z 6) (F64.of_Z 25);
       CallSetEventProperties props;
       CallEnergyPredict shower] /\
    output st' = output (snd DemoRun.loop_result) ++ [row] /\
    RECO_EN row = F64.of_Z 1.
Proof.
  destruct (@core_overwritten_by_perturbed_truth Demo.demo_collaborators
              DemoRun.all_three Demo.ready DemoRun.loop_dicts (snd DemoRun.loop_result))
    as (st'&row&Hrun&Hcalls&Hout&Hen).
  - vm_compute. reflexivity.
  - vm_compute. lia.
  - exists st', row. split; [exact Hrun|]. split; [|split; [exact Hout|]].
    + rewrite Hcalls. vm_compute. reflexivity.
    + rewrite Hen. vm_compute. reflexivity.
Defined.

(** C5 on the small array: the fit puts the core at (10, 20) in the tilted
    frame, [project_to_ground] is called once on it and gives (11, 21), and
    the shower that goes on carries neither: its core is (5, 7), the two
    draws around the simulated core (5, 6). *)
Example fitted_core_not_reported_in_ground_frame :
  let st' := snd (@reconstruct_event Demo.demo_collaborators DemoRun.two_bright
                    Demo.ready) in
  let core_tilt := {| tx := F64.of_Z 10; ty := F64.of_Z 20;
                      pointing_direction := array_pointing_of DemoRun.two_bright |} in
  List.filter (fun c => match c with CallProjectToGround _ => true | _ => false end)
              (calls st')
    = [CallProjectToGround core_tilt] /\
  @project_to_ground Demo.demo_collaborators core_tilt
    = {| gx := F64.of_Z 11; gy := F64.of_Z 21; gz := F64.zero |} /\
  List.filter is_energy (calls st')
    = [CallEnergyPredict {| fit_alt := F64.of_Z 70; fit_az := F64.of_Z 180;
                            core_x := F64.of_Z 5; core_y := F64.of_Z 7 |}].
Proof. vm_compute. repeat split. Qed.

(** telescope 3 has no pixel above threshold: its moments fail *)
Lemma hillas_failure_skips_telescope_witness :
  exists st' cs,
    @process_telescope Demo.demo_collaborators DemoRun.all_three DemoRun.pointing 3
      DemoRun.loop_dicts Demo.ready = (Ok DemoRun.loop_dicts, st') /\
    calls st' = calls Demo.ready ++ cs ++ [Print "no signal left"] /\
    (forall rest,
        @telescope_loop Demo.demo_collaborators DemoRun.all_three DemoRun.pointing
          (3 :: rest) DemoRun.loop_dicts Demo.ready
        = @telescope_loop Demo.demo_collaborators DemoRun.all_three DemoRun.pointing
            rest DemoRun.loop_dicts st') /\
    (forall tels d0 st0 m,
        fst (@telescope_loop Demo.demo_collaborators DemoRun.all_three DemoRun.pointing
               tels d0 st0)
        <> Raise (HillasParameterizationError m)).
Proof.
  apply (@hillas_failure_skips_telescope Demo.demo_collaborators DemoRun.all_three
           DemoRun.pointing 3 DemoRun.loop_dicts Demo.ready (7, 14) "no signal left").
  - vm_compute. reflexivity.
  - left. vm_compute. reflexivity.
Defined.

(** telescope 5 has a camera of a type that is in no table *)
Lemma unregistered_camera_is_fatal_witness :
  exists e st',
    @reconstruct_event Demo.demo_collaborators DemoRun.with_unknown Demo.ready
      = (Raise e, st') /\
    @event_loop Demo.demo_collaborators [DemoRun.with_unknown; DemoRun.all_three]
      Demo.ready = (Raise e, st') /\
    output st' = output Demo.ready /\
    (forall d1 st1,
        @telescope_loop Demo.demo_collaborators DemoRun.with_unknown
          (array_pointing_of DemoRun.with_unknown) [1] empty_dicts Demo.ready
          = (Ok d1, st1) ->
        e = KeyError (KStr "ASTRICam")).
Proof.
  apply (@unregistered_camera_is_fatal Demo.demo_collaborators DemoRun.with_unknown
           [DemoRun.all_three] Demo.ready [1] [] 5).
  - repeat split.
  - reflexivity.
  - set_solver.
  - right. right. vm_compute. reflexivity.
Defined.

(** a configuration that asks for telescope 4 alone *)
Lemma setup_drops_short_telescope_list_witness :
  let st := new_tool {| cfg_infile := "gamma.simtel.gz"; cfg_outfile := "reco.fits";
                        cfg_telescopes := Some [4] |} 0 in
  (exists st',
      @setup Demo.demo_collaborators st = (Ok tt, st') /\
      telescopes st' = None /\
      source st' = @hessio_event_source Demo.demo_collaborators (infile st) None /\
      calls st' = calls st ++ [Print (infile st); CallEventSource (infile st) None]) /\
  (forall st0,
      (forall l0, telescopes (snd (@setup Demo.demo_collaborators st0)) = Some l0 ->
                  (2 <= Datatypes.length l0)%nat) /\
      (forall file allowed,
          CallEventSource file allowed ∈
            drop (Datatypes.length (calls st0))
                 (calls (snd (@setup Demo.demo_collaborators st0))) ->
          allowed = telescopes (snd (@setup Demo.demo_collaborators st0)) /\
          (allowed = None \/
           exists l0, allowed = Some l0 /\ (2 <= Datatypes.length l0)%nat))).
Proof.
  apply (@setup_drops_short_telescope_list Demo.demo_collaborators
           (new_tool {| cfg_infile := "gamma.simtel.gz"; cfg_outfile := "reco.fits";
                        cfg_telescopes := Some [4] |} 0) [4]).
  - reflexivity.
  - cbn. lia.
Defined.

(** C10, as the specification words it, fails for the list [5, 5]: it has
    two entries, so setup keeps it and opens the event source with it, and
    it names exactly one telescope. *)
Lemma one_telescope_by_repetition :
  ~ @never_one_telescope Demo.demo_collaborators
      (new_tool {| cfg_infile := "gamma.simtel.gz"; cfg_outfile := "reco.fits";
                   cfg_telescopes := Some [5; 5] |} 0).
Proof.
  intros Hclaim. apply (Hclaim "gamma.simtel.gz" [5; 5]).
  - vm_compute. right. left.
  - exists 5. intros x. split.
    + intros Hin. apply elem_of_cons in Hin as [->|Hin]; [reflexivity|].
      apply elem_of_cons in Hin as [->|Hin]; [reflexivity|inversion Hin].
    + intros ->. left.
Qed.

(** * Further properties of the tool *)

Section Further.
Context {collab : Collaborators}.

(** ** [setup] *)

(** X1. [setup] on a tool whose telescope list is None: [len] raises a
    TypeError after the input file name has been printed; the event source
    is not opened and the output table is not created. *)
Theorem setup_none_is_type_error (st : Tool) (Hnone : telescopes st = None) :
  exists msg st',
    setup st = (Raise (TypeError msg), st') /\
    calls st' = calls st ++ [Print (infile st)] /\
    source st' = source st /\ output st' = output st.
Proof.
  rewrite setup_run, Hnone. cbn zeta. eexists _, _. repeat split.
Qed.

(** X2. [setup] with two or more telescopes keeps the list, opens the event
    source restricted to exactly that list, and starts from an empty
    geometry registry, an empty output table and the fixed cut tables,
    whatever the tool held before. *)
Theorem setup_keeps_telescope_list (st : Tool) (l : list Z)
    (Hconf : telescopes st = Some l)
    (Hlong : (2 <= Datatypes.length l)%nat) :
  exists st',
    setup st = (Ok tt, st') /\
    telescopes st' = Some l /\
    source st' = hessio_event_source (infile st) (Some l) /\
    calls st' = calls st ++ [Print (infile st); CallEventSource (infile st) (Some l)] /\
    geoms st' = ∅ /\ output st' = [] /\
    amp_cut st' = amp_cut_table /\ dist_cut st' = dist_cut_table /\
    tail_cut st' = tail_cut_table.
Proof.
  rewrite setup_run, Hconf. cbn zeta.
  apply Nat.ltb_ge in Hlong. rewrite Hlong. eexists. repeat split.
Qed.

(** ** [preselect] *)

(** X3. [preselect] for a telescope id that is not in the geometry registry
    raises the KeyError of that id, and leaves the tool as it was. *)
Theorem preselect_unknown_telescope (h : Moments.t) (tel_id : Z) (st : Tool)
    (Hg : geoms st !! tel_id = None) :
  preselect (Some h) tel_id st = (Raise (KeyError (KInt tel_id)), st).
Proof. unfold preselect. exec. rewrite Hg. reflexivity. Qed.


(** ** The telescope loop *)

Lemma tool_after_configuration st event tel_id cs :
  same_configuration st (tool_after st event tel_id cs).
Proof. repeat split. Qed.

Lemma same_configuration_trans st1 st2 st3 :
  same_configuration st1 st2 -> same_configuration st2 st3 ->
  same_configuration st1 st3.
Proof.
  unfold same_configuration. intros (?&?&?&?&?&?&?) (?&?&?&?&?&?&?).
  repeat split; congruence.
Qed.

Lemma telescope_loop_configuration event ap tels : forall d st,
  same_configuration st (snd (telescope_loop event ap tels d st)).
Proof.
  induction tels as [|tel_id rest IH]; intros d st; [repeat split|].
  rewrite telescope_loop_cons.
  pose proof (process_telescope_state event ap tel_id d st) as Hst.
  destruct (process_telescope event ap tel_id d st) as [[d1|e] st1];
    cbn [snd] in *; subst st1.
  - eapply same_configuration_trans; [apply tool_after_configuration|apply IH].
  - apply tool_after_configuration.
Qed.

Lemma reduction_calls st event ap tel_id :
  Forall (fun c => is_reduction_call c = true) (snd (reduction st event ap tel_id)).
Proof.
  unfold reduction. repeat case_match; cbn [snd app]; repeat constructor.
Qed.

Lemma guess_calls_reduction st event tel_id :
  Forall (fun c => is_reduction_call c = true) (guess_calls st event tel_id).
Proof. unfold guess_calls. case_match; repeat constructor. Qed.

Lemma telescope_loop_calls event ap tels : forall d st,
  exists cs,
    calls (snd (telescope_loop event ap tels d st)) = calls st ++ cs /\
    Forall (fun c => is_reduction_call c = true) cs.
Proof.
  induction tels as [|tel_id rest IH]; intros d st.
  - exists []. split; [cbn; rewrite app_nil_r; reflexivity|constructor].
  - rewrite telescope_loop_cons.
    pose proof (process_telescope_state event ap tel_id d st) as Hst.
    pose proof (Forall_app_2 _ _ _ (guess_calls_reduction st event tel_id)
                  (reduction_calls st event ap tel_id)) as Hstep.
    destruct (process_telescope event ap tel_id d st) as [[d1|e] st1];
      cbn [snd] in *; subst st1.
    + destruct (IH d1 (tool_after st event tel_id (snd (reduction st event ap tel_id))))
        as (cs&Hcs&Hall).
      eexists. split.
      * rewrite Hcs, calls_tool_after, <- app_assoc. reflexivity.
      * apply Forall_app_2; assumption.
    + eexists. split; [apply calls_tool_after|exact Hstep].
Qed.

Lemma count_reduction_calls (f : Call -> bool) (cs : list Call) :
  (forall c, is_reduction_call c = true -> f c = false) ->
  Forall (fun c => is_reduction_call c = true) cs ->
  count f cs = 0%nat.
Proof.
  intros Hf Hall. unfold count. induction Hall as [|c cs Hc _ IH]; [reflexivity|].
  cbn. rewrite (Hf c Hc). exact IH.
Qed.

(** the keys of [image] after the loop are telescopes of the list *)
Lemma telescope_loop_image_subseteq event ap tels : forall d st d' st',
  telescope_loop event ap tels d st = (Ok d', st') ->
  dom (image d') ⊆ list_to_set tels ∪ dom (image d).
Proof.
  induction tels as [|tel_id rest IH]; intros d st d' st'.
  - intros [= <- _]. set_solver.
  - rewrite telescope_loop_cons.
    destruct (process_telescope event ap tel_id d st) as [[d1|e] st1] eqn:Hstep;
      [|discriminate].
    intros Hrun. apply IH in Hrun.
    pose proof (process_telescope_image _ _ _ _ _ _ _ Hstep) as Himg.
    rewrite Himg in Hrun. destruct (accepts st event ap tel_id); set_solver.
Qed.

Lemma size_list_to_set_le (l : list Z) :
  (size (list_to_set l : gset Z) <= Datatypes.length l)%nat.
Proof.
  induction l as [|x l IH]; [reflexivity|].
  cbn [list_to_set Datatypes.length]. rewrite size_union_alt, size_singleton.
  pose proof (subseteq_size ((list_to_set l : gset Z) ∖ {[x]}) (list_to_set l)
                ltac:(set_solver)).
  lia.
Qed.

Lemma telescope_loop_size_le event ap tels st d' st' :
  telescope_loop event ap tels empty_dicts st = (Ok d', st') ->
  (size (image d') <= Datatypes.length tels)%nat.
Proof.
  intros Hrun. apply telescope_loop_image_subseteq in Hrun.
  cbn [empty_dicts image] in Hrun. rewrite dom_empty_L in Hrun.
  rewrite <- size_dom.
  etransitivity; [apply subseteq_size; exact Hrun|].
  rewrite (right_id_L ∅ (∪)). apply size_list_to_set_le.
Qed.

(** ** What the event loop leaves alone *)

Lemma reconstruct_event_configuration event st :
  same_configuration st (snd (reconstruct_event event st)).
Proof.
  rewrite reconstruct_event_unfold.
  pose proof (telescope_loop_configuration event (array_pointing_of event)
                (tels_with_data event) empty_dicts st) as Hc.
  destruct (telescope_loop _ _ _ _ _) as [[d|e] st1]; cbn [snd] in *; [|exact Hc].
  destruct (1 <? size (image d))%nat; [|exact Hc].
  rewrite stereo_run. exact Hc.
Qed.

Lemma event_loop_configuration_aux events : forall st,
  same_configuration st (snd (event_loop events st)).
Proof.
  induction events as [|event rest IH]; intros st; [repeat split|].
  rewrite event_loop_cons.
  pose proof (reconstruct_event_configuration
                (dl1_calibrate (dl0_reduce (r1_calibrate event))) st) as Hc.
  destruct (reconstruct_event _ st) as [[[]|e] st1]; cbn [snd] in *; [|exact Hc].
  eapply same_configuration_trans; [exact Hc|apply IH].
Qed.

(** X8. The event loop never changes the configuration of the tool: the
    file names, the telescope list and the three cut tables are after the
    loop what they were before it, also when the loop ends with an
    exception. *)
Theorem start_keeps_configuration (events : list Event) (st : Tool) :
  let st' := snd (event_loop events st) in
  infile st' = infile st /\ outfile st' = outfile st /\
  telescopes st' = telescopes st /\
  amp_cut st' = amp_cut st /\ dist_cut st' = dist_cut st /\
  tail_cut st' = tail_cut st.
Proof.
  destruct (event_loop_configuration_aux events st) as (H1&H2&H3&_&H5&H6&H7).
  cbv zeta. auto 10.
Qed.

(** ** The ledger of an event and of the event loop *)

Lemma reconstruct_event_ledger (event : Event) (st : Tool) :
  exists rows new,
    output (snd (reconstruct_event event st)) = output st ++ rows /\
    calls (snd (reconstruct_event event st)) = calls st ++ new /\
    count is_fit new = Datatypes.length rows /\
    count is_energy new = Datatypes.length rows /\
    count is_project new = Datatypes.length rows /\
    count is_normal new = (2 * Datatypes.length rows)%nat /\
    count is_write new = 0%nat /\
    (rows = [] \/ exists row, rows = [row] /\ row_of event row).
Proof.
  rewrite reconstruct_event_unfold.
  pose proof (telescope_loop_output event (array_pointing_of event)
                (tels_with_data event) empty_dicts st) as Hout.
  destruct (telescope_loop_calls event (array_pointing_of event)
              (tels_with_data event) empty_dicts st) as (cs&Hcs&Hall).
  assert (forall f, (forall c, is_reduction_call c = true -> f c = false) ->
                    count f cs = 0%nat) as Hzero.
  { intros f Hf. apply count_reduction_calls; assumption. }
  assert (count is_fit cs = 0 /\ count is_energy cs = 0 /\ count is_project cs = 0 /\
          count is_normal cs = 0 /\ count is_write cs = 0)%nat as (Z1&Z2&Z3&Z4&Z5).
  { repeat split; apply Hzero; intros []; cbn; congruence. }
  destruct (telescope_loop _ _ _ _ _) as [[d|e] st1] eqn:Hloop; cbn [snd] in *.
  - destruct (1 <? size (image d))%nat eqn:Hgate.
    + rewrite stereo_run. cbn [snd]. tool_simpl.
      exists [stereo_row event (array_pointing_of event) d st1],
             (cs ++ stereo_calls event (array_pointing_of event) d st1).
      rewrite Hout, Hcs, <- app_assoc, !count_app, Z1, Z2, Z3, Z4, Z5.
      repeat split; try reflexivity.
      right. eexists. split; [reflexivity|].
      apply Nat.ltb_lt in Hgate.
      pose proof (telescope_loop_size_le _ _ _ _ _ _ Hloop).
      unfold row_of, stereo_row.
      cbn [EVENT_ID SIM_ALT SIM_AZ SIM_EN NTELS]. repeat split; lia.
    + cbn [snd]. exists [], cs. rewrite Hout, Hcs, app_nil_r.
      repeat split; try assumption. left. reflexivity.
  - exists [], cs. rewrite Hout, Hcs, app_nil_r.
    repeat split; try assumption. left. reflexivity.
Qed.

Lemma event_loop_ledger (events : list Event) : forall st,
  exists rows new used,
    output (snd (event_loop events st)) = output st ++ rows /\
    calls (snd (event_loop events st)) = calls st ++ new /\
    count is_fit new = Datatypes.length rows /\
    count is_energy new = Datatypes.length rows /\
    count is_project new = Datatypes.length rows /\
    count is_normal new = (2 * Datatypes.length rows)%nat /\
    count is_write new = 0%nat /\
    sublist used (calibrated <$> events) /\
    Forall2 row_of used rows.
Proof.
  induction events as [|event rest IH]; intros st.
  - exists [], [], []. cbn. rewrite !app_nil_r.
    repeat split; try reflexivity; constructor.
  - rewrite event_loop_cons. fold (calibrated event).
    destruct (reconstruct_event_ledger (calibrated event) st)
      as (rows1&new1&Ho1&Hc1&F1&E1&P1&N1&W1&Hrow).
    assert (exists rows new used,
      output (snd (event_loop rest (snd (reconstruct_event (calibrated event) st))))
        = output st ++ rows /\
      calls (snd (event_loop rest (snd (reconstruct_event (calibrated event) st))))
        = calls st ++ new /\
      count is_fit new = Datatypes.length rows /\
      count is_energy new = Datatypes.length rows /\
      count is_project new = Datatypes.length rows /\
      count is_normal new = (2 * Datatypes.length rows)%nat /\
      count is_write new = 0%nat /\
      sublist used (calibrated <$> event :: rest) /\
      Forall2 row_of used rows) as Hboth.
    { destruct (IH (snd (reconstruct_event (calibrated event) st)))
        as (rows2&new2&used2&Ho2&Hc2&F2&E2&P2&N2&W2&Hsub&Hrows).
      exists (rows1 ++ rows2), (new1 ++ new2).
      exists (match rows1 with [] => used2 | _ => calibrated event :: used2 end).
      rewrite Ho2, Ho1, Hc2, Hc1, <- !app_assoc, !count_app, !length_app.
      repeat split; try lia.
      - destruct Hrow as [->|(row&->&_)]; cbn [fmap list_fmap].
        + apply sublist_cons, Hsub.
        + apply sublist_skip, Hsub.
      - destruct Hrow as [->|(row&->&Hrow)]; cbn [app]; [exact Hrows|].
        constructor; assumption. }
    destruct (reconstruct_event (calibrated event) st) as [[[]|e] st1] eqn:Hrec;
      cbn [snd] in *; [exact Hboth|].
    exists rows1, new1, (match rows1 with [] => [] | _ => [calibrated event] end).
    repeat split; try assumption.
    + destruct Hrow as [->|(row&->&_)]; cbn [fmap list_fmap].
      * apply sublist_nil_l.
      * apply sublist_skip, sublist_nil_l.
    + destruct Hrow as [->|(row&->&Hrow)]; [constructor|].
      constructor; [exact Hrow|constructor].
Qed.

(** X5. Whatever happens during the event loop, the output table only
    grows: the rows it gains correspond one to one, in order, to a
    subsequence of the calibrated events; each row carries the id and the
    simulated direction and energy of its event, and a telescope count of at
    least two and at most the number of telescopes with data. *)
Theorem output_rows_follow_events (events : list Event) (st : Tool) :
  exists rows used,
    output (snd (event_loop events st)) = output st ++ rows /\
    sublist used (calibrated <$> events) /\
    Forall2 row_of used rows.
Proof.
  destruct (event_loop_ledger events st) as (rows&new&used&Ho&_&_&_&_&_&_&Hs&Hr).
  exists rows, used. auto.
Qed.

(** X6. Over the event loop, completed or ended by an exception, no row is
    written without its calls: the rows written never outnumber the calls
    of the stereo fit, of the projection to the ground or of the energy
    estimate, the draws of the normal sampler are at least twice the rows,
    and the loop never writes the output file. *)
Theorem no_row_without_its_calls (events : list Event) (st : Tool) :
  let st' := snd (event_loop events st) in
  let new := drop (Datatypes.length (calls st)) (calls st') in
  let rows := drop (Datatypes.length (output st)) (output st') in
  (Datatypes.length rows <= count is_fit new)%nat /\
  (Datatypes.length rows <= count is_project new)%nat /\
  (2 * Datatypes.length rows <= count is_normal new)%nat /\
  (Datatypes.length rows <= count is_energy new)%nat /\
  count is_write new = 0%nat.
Proof.
  destruct (event_loop_ledger events st) as (rows&new&used&Ho&Hc&F&E&P&N&W&_).
  cbv zeta. rewrite Ho, Hc, !drop_app_length. repeat split; lia.
Qed.

(** X7. An event with fewer than two telescopes with data never gives a
    row and never reaches the stereo fit, whatever the collaborators
    return. *)
Theorem lone_telescope_event_gives_no_row (event : Event) (st : Tool)
    (Hfew : (Datatypes.length (tels_with_data event) < 2)%nat) :
  output (snd (reconstruct_event event st)) = output st /\
  count is_fit (drop (Datatypes.length (calls st))
                     (calls (snd (reconstruct_event event st)))) = 0%nat.
Proof.
  destruct (reconstruct_event_ledger event st) as (rows&new&Ho&Hc&F&_&_&_&_&Hrow).
  rewrite Ho, Hc, drop_app_length, F.
  destruct Hrow as [->|(row&->&Hrow)]; [rewrite app_nil_r; auto|].
  destruct Hrow as (_&_&_&_&Hn). lia.
Qed.

(** ** The dictionaries handed to the fit and to the energy estimator *)

Lemma process_telescope_dicts event ap tel_id d st d' st' :
  process_telescope event ap tel_id d st = (Ok d', st') ->
  d' = d \/
  exists mc m mask,
    fst (reduction st event ap tel_id) = Accepts mc m mask /\
    d' = saved event ap tel_id (tel_geometry st event tel_id) mc m mask d.
Proof.
  rewrite process_telescope_outcome.
  destruct (fst (reduction st event ap tel_id)) as [e|msg| |mc m mask] eqn:Hred;
    cbn [outcome_result]; intros Heq; try discriminate;
    injection Heq as <- _; [left; reflexivity..|].
  right. exists mc, m, mask. split; reflexivity.
Qed.

Lemma saved_aligned event ap tel_id geom mc m mask d :
  dicts_aligned d -> dicts_aligned (saved event ap tel_id geom mc m mask d).
Proof.
  unfold dicts_aligned, saved. intros (H1&H2&H3&H4&H5&H6&H7&H8&H9&H10).
  cbn [image pixel_x pixel_y pixel_area tel_type tel_x tel_y hillas hillas_nom
       tel_phi tel_theta].
  rewrite !dom_insert_L, H1, H2, H3, H4, H5, H6, H7, H8, H9, H10.
  repeat split.
Qed.

Lemma telescope_loop_aligned event ap tels : forall d st d' st',
  dicts_aligned d ->
  telescope_loop event ap tels d st = (Ok d', st') ->
  dicts_aligned d'.
Proof.
  induction tels as [|tel_id rest IH]; intros d st d' st' Hal.
  - intros [= <- _]. exact Hal.
  - rewrite telescope_loop_cons.
    destruct (process_telescope event ap tel_id d st) as [[d1|e] st1] eqn:Hstep;
      [|discriminate].
    apply IH. apply process_telescope_dicts in Hstep as [->|(mc&m&mask&_&->)];
      [exact Hal|apply saved_aligned, Hal].
Qed.

(** X9. When the telescope loop of an event completes, its eleven
    dictionaries have exactly the same keys, and every key is a telescope
    with data of the event: a telescope is either in all of them or in
    none. *)
Theorem dictionaries_share_their_keys (event : Event) (st : Tool) (d : Dicts)
    (st' : Tool)
    (Hloop : telescope_loop event (array_pointing_of event) (tels_with_data event)
               empty_dicts st = (Ok d, st')) :
  dom (pixel_x d) = dom (image d) /\ dom (pixel_y d) = dom (image d) /\
  dom (pixel_area d) = dom (image d) /\ dom (tel_type d) = dom (image d) /\
  dom (tel_x d) = dom (image d) /\ dom (tel_y d) = dom (image d) /\
  dom (hillas d) = dom (image d) /\ dom (hillas_nom d) = dom (image d) /\
  dom (tel_phi d) = dom (image d) /\ dom (tel_theta d) = dom (image d) /\
  (forall tel_id, tel_id ∈ dom (image d) -> tel_id ∈ tels_with_data event).
Proof.
  assert (dicts_aligned d) as Hal.
  { eapply telescope_loop_aligned; [|exact Hloop].
    unfold dicts_aligned, empty_dicts. cbn. repeat split. }
  destruct Hal as (H1&H2&H3&H4&H5&H6&H7&H8&H9&H10).
  repeat (split; [assumption|]).
  intros tel_id Hin. apply telescope_loop_image_subseteq in Hloop.
  cbn [empty_dicts image] in Hloop. rewrite dom_empty_L in Hloop. set_solver.
Qed.

Lemma select_cuts_true st geom m :
  select_cuts st geom m = Ok true ->
  exists amp dcut,
    amp_cut st !! cam_id geom = Some amp /\
    dist_cut st !! cam_id geom = Some dcut /\
    cuts_pass m amp dcut = true.
Proof.
  unfold select_cuts.
  destruct (amp_cut st !! cam_id geom) as [amp|]; [|discriminate].
  destruct (F64.gtb (Moments.size m) (F64.of_Z amp)) eqn:Hs; [|discriminate].
  destruct (dist_cut st !! cam_id geom) as [dcut|]; [|discriminate].
  intros [= Hb]. exists amp, dcut. unfold cuts_pass. rewrite Hs.
  repeat split. exact Hb.
Qed.

Lemma reduction_accepts st event ap tel_id mc m mask :
  fst (reduction st event ap tel_id) = Accepts mc m mask ->
  is_Some (tail_cut st !! cam_id (tel_geometry st event tel_id)) /\
  select_cuts st (tel_geometry st event tel_id) m = Ok true.
Proof.
  unfold reduction.
  destruct (tail_cut st !! _) as [tc|]; [|discriminate].
  destruct (hillas_parameters _ _ _) as [mc'|[]]; try discriminate.
  destruct (hillas_parameters _ _ _) as [m'|[]]; try discriminate.
  destruct (select_cuts st _ m') as [[]|e] eqn:Hcut; try discriminate.
  cbn [fst]. intros [= _ <- _]. split; [eexists; reflexivity|exact Hcut].
Qed.

Lemma telescope_loop_cuts (st0 : Tool) event ap tels : forall d st d' st',
  same_configuration st0 st ->
  cuts_respected st0 d ->
  telescope_loop event ap tels d st = (Ok d', st') ->
  cuts_respected st0 d'.
Proof.
  induction tels as [|tel_id rest IH]; intros d st d' st' Hconf Hinv.
  - intros [= <- _]. exact Hinv.
  - rewrite telescope_loop_cons.
    pose proof (process_telescope_state event ap tel_id d st) as Hst.
    destruct (process_telescope event ap tel_id d st) as [[d1|e] st1] eqn:Hstep;
      [|discriminate].
    cbn [snd] in Hst. apply IH.
    + subst st1. eapply same_configuration_trans;
        [exact Hconf|apply tool_after_configuration].
    + apply process_telescope_dicts in Hstep as [->|(mc&m&mask&Hacc&->)];
        [exact Hinv|].
      apply reduction_accepts in Hacc as [Htc Hcut].
      apply select_cuts_true in Hcut as (amp&dcut&Ha&Hd&Hpass).
      destruct Hconf as (_&_&_&_&Ea&Ed&Et). rewrite Ea in Ha. rewrite Ed in Hd.
      rewrite Et in Htc.
      intros t m'. unfold saved. cbn [hillas_nom tel_type].
      destruct (decide (tel_id = t)) as [->|Hne].
      * rewrite !lookup_insert_eq. intros [= <-].
        exists (cam_id (tel_geometry st event t)), amp, dcut. auto.
      * rewrite !lookup_insert_ne by exact Hne. apply Hinv.
Qed.

(** X10. When the telescope loop of an event completes, every telescope it
    kept has a camera type with thresholds in all three cut tables, and the
    nominal-frame moments kept for it are inside the cuts of that type:
    size above the amplitude cut, centroid inside the distance cut, positive
    width. *)
Theorem kept_telescopes_satisfy_cuts (event : Event) (st : Tool) (d : Dicts)
    (st' : Tool) (tel_id : Z) (m : Moments.t)
    (Hloop : telescope_loop event (array_pointing_of event) (tels_with_data event)
               empty_dicts st = (Ok d, st'))
    (Hkept : hillas_nom d !! tel_id = Some m) :
  exists cam amp dcut,
    tel_type d !! tel_id = Some cam /\
    is_Some (tail_cut st !! cam) /\
    amp_cut st !! cam = Some amp /\
    dist_cut st !! cam = Some dcut /\
    F64.gtb (Moments.size m) (F64.of_Z amp) = true /\
    F64.ltb (centroid_dist m) dcut = true /\
    F64.gtb (Moments.width m) F64.zero = true.
Proof.
  assert (cuts_respected st d) as Hinv.
  { eapply (telescope_loop_cuts st); [| |exact Hloop].
    - repeat split.
    - intros t m'. cbn. rewrite lookup_empty. discriminate. }
  destruct (Hinv tel_id m Hkept) as (cam&amp&dcut&Ht&Htc&Ha&Hd&Hpass).
  exists cam, amp, dcut. unfold cuts_pass in Hpass.
  apply andb_true_iff in Hpass as [Hpass Hw].
  apply andb_true_iff in Hpass as [Hs Hdist]. auto 10.
Qed.

(** ** The registry after an event *)

Lemma telescope_loop_registry event ap tels : forall d st d' st' tel_id,
  telescope_loop event ap tels d st = (Ok d', st') ->
  tel_id ∈ tels ->
  geoms st' !! tel_id = Some (tel_geometry st event tel_id).
Proof.
  induction tels as [|t rest IH]; intros d st d' st' tel_id Hrun Hin.
  - inversion Hin.
  - rewrite telescope_loop_cons in Hrun.
    pose proof (process_telescope_state event ap t d st) as Hst.
    destruct (process_telescope event ap t d st) as [[d1|e] st1] eqn:Hstep;
      [|discriminate].
    cbn [snd] in Hst.
    assert (geoms st1 !! t = Some (tel_geometry st event t)) as Ht.
    { subst st1. rewrite geoms_tool_after. apply lookup_insert_eq. }
    destruct (decide (tel_id ∈ rest)) as [Hrest|Hrest].
    + rewrite (IH d1 st1 d' st' tel_id Hrun Hrest). f_equal.
      destruct (decide (t = tel_id)) as [->|Hne].
      * unfold tel_geometry at 1. rewrite Ht. reflexivity.
      * symmetry. apply tel_geometry_agree. subst st1.
        apply agree_tool_after. exact Hne.
    + apply elem_of_cons in Hin as [->|Hin]; [|contradiction].
      pose proof (telescope_loop_write_once event ap rest d1 st1) as [Hkeep _].
      rewrite Hrun in Hkeep. cbn [snd] in Hkeep. apply Hkeep, Ht.
Qed.

Lemma telescope_loop_registry_dom event ap tels : forall d st,
  dom (geoms (snd (telescope_loop event ap tels d st)))
    ⊆ dom (geoms st) ∪ list_to_set tels.
Proof.
  induction tels as [|t rest IH]; intros d st; [cbn; set_solver|].
  rewrite telescope_loop_cons.
  pose proof (process_telescope_state event ap t d st) as Hst.
  destruct (process_telescope event ap t d st) as [[d1|e] st1]; cbn [snd] in *;
    subst st1.
  - etransitivity; [apply IH|]. rewrite geoms_tool_after, dom_insert_L.
    cbn [list_to_set]. set_solver.
  - rewrite geoms_tool_after, dom_insert_L. cbn [list_to_set]. set_solver.
Qed.

(** X11. After an event that ends without an exception the geometry
    registry holds every telescope with data of the event, each with the
    geometry it had before or, if it was new, with the one inferred from the
    pixel positions and focal length of this event; no other telescope id
    enters the registry. *)
Theorem registry_after_event (event : Event) (st st' : Tool)
    (Hok : reconstruct_event event st = (Ok tt, st')) :
  (forall tel_id, tel_id ∈ tels_with_data event ->
     geoms st' !! tel_id =
     Some (match geoms st !! tel_id with
           | Some g => g
           | None => guess (fst (pixel_pos (inst event) tel_id))
                           (snd (pixel_pos (inst event) tel_id))
                           (optical_foclen (inst event) tel_id)
           end)) /\
  dom (geoms st') = dom (geoms st) ∪ list_to_set (tels_with_data event).
Proof.
  rewrite reconstruct_event_unfold in Hok.
  pose proof (telescope_loop_registry_dom event (array_pointing_of event)
                (tels_with_data event) empty_dicts st) as Hdom.
  pose proof (telescope_loop_write_once event (array_pointing_of event)
                (tels_with_data event) empty_dicts st) as [Hkeep _].
  destruct (telescope_loop _ _ _ _ _) as [[d|e] st1] eqn:Hloop; [|discriminate].
  cbn [snd] in *.
  assert (geoms st' = geoms st1) as ->.
  { destruct (1 <? size (image d))%nat.
    - rewrite stereo_run in Hok. injection Hok as <-. reflexivity.
    - injection Hok as <-. reflexivity. }
  assert (forall tel_id, tel_id ∈ tels_with_data event ->
            geoms st1 !! tel_id = Some (tel_geometry st event tel_id)) as Hall.
  { intros tel_id Hin. eapply telescope_loop_registry; eassumption. }
  split; [exact Hall|].
  apply set_eq. intros t. split; [apply Hdom|].
  rewrite elem_of_union, !elem_of_dom, elem_of_list_to_set.
  intros [[g Hg]|Hin]; [exists g; apply Hkeep, Hg|].
  rewrite (Hall t Hin). eexists. reflexivity.
Qed.

(** ** Other exceptions of the moment computation *)


(** ** What [preselect] reads *)

(** X13. [preselect] never writes to the tool, whether it answers or
    raises, and its answer depends on the tool only through the registry
    entry of the telescope and the amplitude and distance tables. *)
Theorem preselect_reads_only (h : option Moments.t) (tel_id : Z) (st st' : Tool)
    (Hg : geoms st !! tel_id = geoms st' !! tel_id)
    (Ha : amp_cut st = amp_cut st')
    (Hd : dist_cut st = dist_cut st') :
  snd (preselect h tel_id st) = st /\
  fst (preselect h tel_id st) = fst (preselect h tel_id st').
Proof.
  destruct h as [h|]; [|split; reflexivity].
  destruct (geoms st' !! tel_id) as [g|] eqn:Hlook'.
  - rewrite (preselect_select_cuts h tel_id st g Hg).
    rewrite (preselect_select_cuts h tel_id st' g Hlook').
    unfold select_cuts. rewrite Ha, Hd. split; reflexivity.
  - unfold preselect. exec. rewrite Hg, Hlook'. split; reflexivity.
Qed.

End Further.

Section Aggregation.
Context {collab : Collaborators}.

Lemma reduction_accepts_moments st event ap tel_id mc m mask :
  fst (reduction st event ap tel_id) = Accepts mc m mask ->
  saved_from st event ap tel_id (tel_geometry st event tel_id)
    (saved event ap tel_id (tel_geometry st event tel_id) mc m mask empty_dicts).
Proof.
  unfold reduction, saved_from.
  destruct (tail_cut st !! _) as [tc|] eqn:Htc; [|discriminate].
  destruct (hillas_parameters _ _ _) as [mc'|[]] eqn:Hcam; try discriminate.
  destruct (hillas_parameters _ _ _) as [m'|[]] eqn:Hnom in |- *; try discriminate.
  destruct (select_cuts st _ m') as [[]|e]; try discriminate.
  cbn [fst]. intros [= <- <- <-]. exists tc, mc', m'. cbv zeta.
  repeat split; assumption.
Qed.

Lemma entry_saved_eq event ap tel_id geom mc m mask d d0 :
  entry (saved event ap tel_id geom mc m mask d) tel_id
  = entry (saved event ap tel_id geom mc m mask d0) tel_id.
Proof.
  unfold entry, saved.
  cbn [image pixel_x pixel_y pixel_area tel_type tel_x tel_y hillas hillas_nom
       tel_phi tel_theta].
  rewrite !lookup_insert_eq. reflexivity.
Qed.

Lemma entry_saved_ne event ap tel_id geom mc m mask d other :
  tel_id <> other ->
  entry (saved event ap tel_id geom mc m mask d) other = entry d other.
Proof.
  intros Hne. unfold entry, saved.
  cbn [image pixel_x pixel_y pixel_area tel_type tel_x tel_y hillas hillas_nom
       tel_phi tel_theta].
  rewrite !lookup_insert_ne by exact Hne. reflexivity.
Qed.

Lemma telescope_loop_kept event ap tels : forall d st d' st',
  kept_as_saved st event ap d ->
  telescope_loop event ap tels d st = (Ok d', st') ->
  kept_as_saved st' event ap d'.
Proof.
  induction tels as [|tel_id rest IH]; intros d st d' st' Hinv.
  - intros [= <- <-]. exact Hinv.
  - rewrite telescope_loop_cons.
    pose proof (process_telescope_state event ap tel_id d st) as Hst.
    destruct (process_telescope event ap tel_id d st) as [[d1|e] st1] eqn:Hstep;
      [|discriminate].
    cbn [snd] in Hst. apply IH. clear IH.
    assert (forall t g, geoms st !! t = Some g -> geoms st1 !! t = Some g) as Hkeep.
    { intros t g Hg. subst st1.
      eapply lookup_weaken; [exact Hg|apply geoms_tool_after_subseteq]. }
    assert (tail_cut st1 = tail_cut st) as Htab by (subst st1; reflexivity).
    assert (forall t, t ∈ dom (image d) ->
              exists geom, geoms st1 !! t = Some geom /\
                           saved_from st1 event ap t geom d) as Hold.
    { intros t Hin. destruct (Hinv t Hin) as (geom&Hg&tc&mc&m&Hs).
      exists geom. split; [apply Hkeep, Hg|].
      exists tc, mc, m. rewrite Htab. exact Hs. }
    apply process_telescope_dicts in Hstep as [->|(mc&m&mask&Hacc&->)];
      [exact Hold|].
    intros t Hin. destruct (decide (tel_id = t)) as [<-|Hne].
    + exists (tel_geometry st event tel_id). split.
      * subst st1. rewrite geoms_tool_after. apply lookup_insert_eq.
      * apply reduction_accepts_moments in Hacc as (tc&mc'&m'&Hs).
        exists tc, mc', m'. rewrite Htab. cbv zeta in *.
        destruct Hs as (Htc&Hcam&Hnom&Hent). repeat split; try assumption.
        rewrite <- Hent. apply entry_saved_eq.
    + assert (t ∈ dom (image d)) as Hin'.
      { unfold saved in Hin. cbn [image] in Hin. rewrite dom_insert_L in Hin.
        set_solver. }
      destruct (Hold t Hin') as (geom&Hg&tc&mc'&m'&Hs).
      exists geom. split; [exact Hg|]. exists tc, mc', m'. cbv zeta in *.
      destruct Hs as (Htc&Hcam&Hnom&Hent). repeat split; try assumption.
      rewrite <- Hent. apply entry_saved_ne, Hne.
Qed.

(** X14. When the telescope loop of an event completes, what the
    dictionaries hold for a kept telescope comes from its registry geometry:
    the camera-frame and nominal-frame moments are the ones computed over
    the image masked by the cleaning mask, while the saved image and pixel
    positions are selected by that mask after two dilations; the telescope
    type is the camera type of the geometry, the position is the tilted
    ground position, and the pixel area is divided by the squared focal
    length. *)
Theorem kept_entries_are_as_saved (event : Event) (st : Tool) (d : Dicts)
    (st' : Tool) (tel_id : Z)
    (Hloop : telescope_loop event (array_pointing_of event) (tels_with_data event)
               empty_dicts st = (Ok d, st'))
    (Hkept : tel_id ∈ dom (image d)) :
  exists geom tc mc m,
    let ap := array_pointing_of event in
    let pmt_signal := dl1_image event tel_id 0%nat in
    let mask := tailcuts_clean geom pmt_signal (snd tc) (fst tc) in
    let grown := dilate geom (dilate geom mask) in
    let nom := nominal_pixels event ap tel_id geom in
    let fl := optical_foclen (inst event) tel_id in
    let tilt_tel := ground_to_tilted
      {| gx := fst (fst (tel_pos (inst event) tel_id));
         gy := snd (fst (tel_pos (inst event) tel_id));
         gz := snd (tel_pos (inst event) tel_id) |} ap in
    geoms st' !! tel_id = Some geom /\
    tail_cut st !! cam_id geom = Some tc /\
    hillas_parameters (fst (pixel_pos (inst event) tel_id))
                      (snd (pixel_pos (inst event) tel_id))
                      (mul_mask pmt_signal mask) = Ok mc /\
    hillas_parameters (fst nom) (snd nom) (mul_mask pmt_signal mask) = Ok m /\
    hillas d !! tel_id = Some mc /\
    hillas_nom d !! tel_id = Some m /\
    image d !! tel_id = Some (select pmt_signal grown) /\
    pixel_x d !! tel_id = Some (select (fst nom) grown) /\
    pixel_y d !! tel_id = Some (select (snd nom) grown) /\
    pixel_area d !! tel_id = Some ((fun a => F64.div a (F64.mul fl fl)) <$> pix_area geom) /\
    tel_type d !! tel_id = Some (cam_id geom) /\
    tel_x d !! tel_id = Some (tx tilt_tel) /\
    tel_y d !! tel_id = Some (ty tilt_tel) /\
    tel_phi d !! tel_id = Some (az ap) /\
    tel_theta d !! tel_id
      = Some (F64.sub (F64.of_Z 90) (F64.mul (alt ap) deg_per_rad)).
Proof.
  assert (kept_as_saved st' event (array_pointing_of event) d) as Hinv.
  { eapply telescope_loop_kept; [|exact Hloop].
    intros t Hin. cbn [empty_dicts image] in Hin. rewrite dom_empty_L in Hin.
    set_solver. }
  destruct (Hinv tel_id Hkept) as (geom&Hg&tc&mc&m&Hs). cbv zeta in Hs.
  destruct Hs as (Htc&Hcam&Hnom&Hent).
  pose proof (telescope_loop_configuration event (array_pointing_of event)
                (tels_with_data event) empty_dicts st) as Hconf.
  rewrite Hloop in Hconf. destruct Hconf as (_&_&_&_&_&_&Et). cbn [snd] in Et.
  rewrite Et in Htc.
  exists geom, tc, mc, m. cbv zeta.
  unfold entry, saved in Hent.
  cbn [image pixel_x pixel_y pixel_area tel_type tel_x tel_y hillas hillas_nom
       tel_phi tel_theta empty_dicts] in Hent.
  rewrite !lookup_insert_eq in Hent.
  injection Hent as E1 E2 E3 E4 E5 E6 E7 E8 E9 E10 E11.
  repeat split; assumption.
Qed.

End Aggregation.

(** * The geometry registry across events *)

Section Registry.
Context {collab : Collaborators}.

Lemma event_loop_app (events1 events2 : list Event) : forall st,
  event_loop (events1 ++ events2) st =
  match event_loop events1 st with
  | (Ok _, st1) => event_loop events2 st1
  | (Raise e, st1) => (Raise e, st1)
  end.
Proof.
  induction events1 as [|event rest IH]; intros st; [reflexivity|].
  rewrite <- app_comm_cons, !event_loop_cons.
  destruct (reconstruct_event _ st) as [[[]|e] st1]; [apply IH|reflexivity].
Qed.

Lemma reconstruct_event_untouched (event : Event) (st : Tool) (tel_id : Z) :
  tel_id ∉ tels_with_data event ->
  geoms (snd (reconstruct_event event st)) !! tel_id = geoms st !! tel_id.
Proof.
  intros Hnot. rewrite reconstruct_event_unfold.
  destruct (telescope_loop event (array_pointing_of event) (tels_with_data event)
              empty_dicts st) as [[d|e] st1] eqn:Hloop;
    pose proof (telescope_loop_agree _ _ _ _ _ _ _ tel_id Hloop Hnot) as (Hg&_).
  - destruct (1 <? size (image d))%nat; [rewrite stereo_run|];
      cbn [snd]; tool_simpl; symmetry; exact Hg.
  - symmetry. exact Hg.
Qed.

Lemma event_loop_untouched (events : list Event) (tel_id : Z) : forall st,
  (forall e, e ∈ events -> tel_id ∉ tels_with_data (calibrated e)) ->
  geoms (snd (event_loop events st)) !! tel_id = geoms st !! tel_id.
Proof.
  induction events as [|event rest IH]; intros st Hnot; [reflexivity|].
  rewrite event_loop_cons. fold (calibrated event).
  pose proof (reconstruct_event_untouched (calibrated event) st tel_id
                (Hnot event (list_elem_of_here _ _))) as Hstep.
  destruct (reconstruct_event (calibrated event) st) as [[[]|e] st1];
    cbn [snd] in *; [|exact Hstep].
  rewrite IH; [exact Hstep|]. intros e He. apply Hnot. right. exact He.
Qed.

Lemma reconstruct_event_registers (event : Event) (st st' : Tool) (tel_id : Z) :
  reconstruct_event event st = (Ok tt, st') ->
  tel_id ∈ tels_with_data event ->
  geoms st' !! tel_id = Some (tel_geometry st event tel_id).
Proof.
  rewrite reconstruct_event_unfold. intros Hok Hin.
  destruct (telescope_loop _ _ _ _ _) as [[d|e] st1] eqn:Hloop; [|discriminate].
  assert (geoms st' = geoms st1) as ->.
  { destruct (1 <? size (image d))%nat.
    - rewrite stereo_run in Hok. injection Hok as <-. reflexivity.
    - injection Hok as <-. reflexivity. }
  eapply telescope_loop_registry; eassumption.
Qed.

Lemma reduction_cleans st event ap tel_id tc :
  tail_cut st !! cam_id (tel_geometry st event tel_id) = Some tc ->
  CallTailcutsClean (tel_geometry st event tel_id) (dl1_image event tel_id 0%nat)
    (snd tc) (fst tc) ∈ snd (reduction st event ap tel_id).
Proof.
  intros Htc. unfold reduction. rewrite Htc. cbv zeta.
  repeat case_match; cbn [snd]; rewrite ?elem_of_app; repeat left; left.
Qed.

(** C7. The registry is written once per telescope id. In one iteration of
    the telescope loop: for an id that is not in the registry the geometry
    is inferred from the pixel arrays and focal length of the event, by one
    call made first, and stored under the id; for an id that is in the
    registry nothing is inferred and the registry stays as it is; either way
    the stored geometry is the one the iteration works with. Over any
    sequence of events: an entry is never removed or replaced and no
    geometry is inferred again for an id that is present; an absent id gets,
    at the first event that has it, the geometry of that event's arrays,
    with exactly one inference, whatever arrays later events supply. In a
    whole run, which starts from the empty registry of setup, the geometry
    of each id is inferred at most once. *)
Theorem geometry_registry_write_once (events : list Event) (st : Tool) :
  (forall event ap tel_id d st0,
      let pix_x := fst (pixel_pos (inst event) tel_id) in
      let pix_y := snd (pixel_pos (inst event) tel_id) in
      let fl := optical_foclen (inst event) tel_id in
      let st1 := snd (process_telescope event ap tel_id d st0) in
      let new := drop (Datatypes.length (calls st0)) (calls st1) in
      let geom := match geoms st0 !! tel_id with
                  | Some g => g
                  | None => guess pix_x pix_y fl
                  end in
      geoms st1 !! tel_id = Some geom /\
      match geoms st0 !! tel_id with
      | Some _ =>
          geoms st1 = geoms st0 /\ (forall t, count (is_guess t) new = 0%nat)
      | None =>
          geoms st1 = <[tel_id := guess pix_x pix_y fl]> (geoms st0) /\
          head new = Some (CallGuess tel_id pix_x pix_y fl) /\
          count (is_guess tel_id) new = 1%nat
      end /\
      (forall tc, tail_cut st0 !! cam_id geom = Some tc ->
         CallTailcutsClean geom (dl1_image event tel_id 0%nat) (snd tc) (fst tc) ∈ new)) /\
  write_once st (snd (event_loop events st)) /\
  (forall tel_id g,
      geoms st !! tel_id = Some g ->
      geoms (snd (event_loop events st)) !! tel_id = Some g /\
      count (is_guess tel_id) (calls (snd (event_loop events st)))
        = count (is_guess tel_id) (calls st)) /\
  (forall pre event post tel_id,
      events = pre ++ event :: post ->
      geoms st !! tel_id = None ->
      (forall e, e ∈ pre -> tel_id ∉ tels_with_data (calibrated e)) ->
      tel_id ∈ tels_with_data (calibrated event) ->
      fst (event_loop (pre ++ [event]) st) = Ok tt ->
      geoms (snd (event_loop events st)) !! tel_id
        = Some (guess (fst (pixel_pos (inst (calibrated event)) tel_id))
                      (snd (pixel_pos (inst (calibrated event)) tel_id))
                      (optical_foclen (inst (calibrated event)) tel_id)) /\
      count (is_guess tel_id) (calls (snd (event_loop events st)))
        = (count (is_guess tel_id) (calls st) + 1)%nat) /\
  (forall tel_id,
      (count (is_guess tel_id) (calls (snd (event_loop events st)))
       <= count (is_guess tel_id) (calls st) + 1 - cached st tel_id)%nat) /\
  (forall cfg seed tel_id,
      (count (is_guess tel_id) (calls (snd (run (new_tool cfg seed)))) <= 1)%nat).
Proof.
  split; [|split; [apply event_loop_write_once|split; [|split; [|split]]]].
  - intros event ap tel_id d st0. cbv zeta.
    rewrite process_telescope_state, calls_tool_after, drop_app_length,
      geoms_tool_after.
    fold (tel_geometry st0 event tel_id).
    split; [apply lookup_insert_eq|]. split.
    + unfold guess_calls, tel_geometry.
      destruct (geoms st0 !! tel_id) as [g|] eqn:Hg.
      * split; [apply insert_id, Hg|]. intros t. apply reduction_no_guess.
      * split; [reflexivity|]. split; [reflexivity|].
        rewrite count_app, reduction_no_guess. unfold count. cbn.
        rewrite Z.eqb_refl. reflexivity.
    + intros tc Htc. apply elem_of_app. right. apply reduction_cleans, Htc.
  - intros tel_id g Hg.
    destruct (event_loop_write_once events st) as [Hkeep Hc].
    split; [apply Hkeep, Hg|]. specialize (Hc tel_id). unfold cached in Hc.
    rewrite Hg, (Hkeep _ _ Hg) in Hc. lia.
  - intros pre event post tel_id -> Hnone Hpre Hin Hdone.
    replace (pre ++ event :: post) with ((pre ++ [event]) ++ post)
      by (rewrite <- app_assoc; reflexivity).
    assert (exists st2, event_loop (pre ++ [event]) st = (Ok tt, st2) /\
              geoms st2 !! tel_id
              = Some (guess (fst (pixel_pos (inst (calibrated event)) tel_id))
                            (snd (pixel_pos (inst (calibrated event)) tel_id))
                            (optical_foclen (inst (calibrated event)) tel_id)))
      as (st2&Hrun&Hst2).
    { rewrite event_loop_app in Hdone |- *.
      pose proof (event_loop_untouched pre tel_id st Hpre) as Hsame.
      destruct (event_loop pre st) as [[[]|e] st1]; [|discriminate].
      cbn [snd] in Hsame. rewrite Hnone in Hsame.
      rewrite event_loop_cons in Hdone |- *. fold (calibrated event) in Hdone |- *.
      destruct (reconstruct_event (calibrated event) st1) as [[[]|e] st2] eqn:Hrec;
        [|discriminate].
      exists st2. split; [reflexivity|].
      rewrite (reconstruct_event_registers _ _ _ _ Hrec Hin).
      unfold tel_geometry. rewrite Hsame. reflexivity. }
    rewrite event_loop_app, Hrun.
    destruct (event_loop_write_once post st2) as [Hkeep _].
    pose proof (Hkeep _ _ Hst2) as Hfinal. split; [exact Hfinal|].
    destruct (event_loop_write_once ((pre ++ [event]) ++ post) st) as [_ Hc].
    specialize (Hc tel_id). rewrite event_loop_app, Hrun in Hc.
    unfold cached in Hc. rewrite Hnone, Hfinal in Hc. lia.
  - intros tel_id.
    destruct (event_loop_write_once events st) as [_ Hc]. specialize (Hc tel_id).
    unfold cached in *. destruct (geoms st !! tel_id), (geoms _ !! tel_id); lia.
  - intros cfg seed tel_id. unfold run. exec. rewrite setup_run.
    cbn [new_tool telescopes infile outfile source output rng calls].
    destruct (cfg_telescopes cfg) as [l|]; cbn zeta; [|cbn; lia].
    unfold start, finish. exec. tool_simpl.
    match goal with |- context [event_loop ?evs ?s0] =>
      destruct (event_loop_write_once evs s0) as [_ Hc];
      destruct (event_loop evs s0) as [[[]|e] st'] end;
      specialize (Hc tel_id); unfold cached in Hc; tool_simpl;
      rewrite lookup_empty in Hc; cbn in Hc;
      rewrite ?count_app; destruct (geoms st' !! tel_id); cbn; cbn in Hc; lia.
Qed.

End Registry.

(** * The further properties on the small array *)

(** a tool created without a telescope list *)
Lemma setup_none_is_type_error_witness :
  let st := new_tool {| cfg_infile := "gamma.simtel.gz"; cfg_outfile := "reco.fits";
                        cfg_telescopes := None |} 0 in
  exists msg st',
    @setup Demo.demo_collaborators st = (Raise (TypeError msg), st') /\
    calls st' = calls st ++ [Print (infile st)] /\
    source st' = source st /\ output st' = output st.
Proof.
  apply (@setup_none_is_type_error Demo.demo_collaborators). reflexivity.
Defined.

(** a configuration that asks for telescopes 1 and 2 *)
Lemma setup_keeps_telescope_list_witness :
  let st := new_tool {| cfg_infile := "gamma.simtel.gz"; cfg_outfile := "reco.fits";
                        cfg_telescopes := Some [1; 2] |} 0 in
  exists st',
    @setup Demo.demo_collaborators st = (Ok tt, st') /\
    telescopes st' = Some [1; 2] /\
    source st' = @hessio_event_source Demo.demo_collaborators (infile st) (Some [1; 2]) /\
    calls st' = calls st ++ [Print (infile st);
                             CallEventSource (infile st) (Some [1; 2])] /\
    geoms st' = ∅ /\ output st' = [] /\
    amp_cut st' = amp_cut_table /\ dist_cut st' = dist_cut_table /\
    tail_cut st' = tail_cut_table.
Proof.
  apply (@setup_keeps_telescope_list Demo.demo_collaborators
           (new_tool {| cfg_infile := "gamma.simtel.gz"; cfg_outfile := "reco.fits";
                        cfg_telescopes := Some [1; 2] |} 0) [1; 2]).
  - reflexivity.
  - cbn. lia.
Defined.

(** telescope 9 was never seen *)
Lemma preselect_unknown_telescope_witness :
  preselect (Some DemoRun.bright) 9 DemoRun.seen_one
  = (Raise (KeyError (KInt 9)), DemoRun.seen_one).
Proof.
  apply (preselect_unknown_telescope DemoRun.bright 9 DemoRun.seen_one).
  vm_compute. reflexivity.
Defined.


(** the two outcomes on the tool without distance cuts *)
Example short_circuit_both_ways :
  fst (preselect (Some DemoRun.bright) 1 Partial.no_dist_cut)
    = Raise (KeyError (KStr "LSTCam")) /\
  fst (preselect (Some (with_size (F64.of_Z 50) DemoRun.bright)) 1 Partial.no_dist_cut)
    = Ok false.
Proof. vm_compute. split; reflexivity. Qed.

(** an event seen by telescope 1 alone *)
Lemma lone_telescope_event_gives_no_row_witness :
  output (snd (@reconstruct_event Demo.demo_collaborators Partial.alone Demo.ready))
    = output Demo.ready /\
  count is_fit (drop (Datatypes.length (calls Demo.ready))
                     (calls (snd (@reconstruct_event Demo.demo_collaborators
                                    Partial.alone Demo.ready)))) = 0%nat.
Proof.
  apply (@lone_telescope_event_gives_no_row Demo.demo_collaborators Partial.alone
           Demo.ready).
  cbn. lia.
Defined.

(** the dictionaries of the event seen by three telescopes *)
Lemma dictionaries_share_their_keys_witness :
  let d := DemoRun.loop_dicts in
  dom (pixel_x d) = dom (image d) /\ dom (pixel_y d) = dom (image d) /\
  dom (pixel_area d) = dom (image d) /\ dom (tel_type d) = dom (image d) /\
  dom (tel_x d) = dom (image d) /\ dom (tel_y d) = dom (image d) /\
  dom (hillas d) = dom (image d) /\ dom (hillas_nom d) = dom (image d) /\
  dom (tel_phi d) = dom (image d) /\ dom (tel_theta d) = dom (image d) /\
  (forall tel_id, tel_id ∈ dom (image d) -> tel_id ∈ tels_with_data DemoRun.all_three).
Proof.
  apply (@dictionaries_share_their_keys Demo.demo_collaborators DemoRun.all_three
           Demo.ready DemoRun.loop_dicts (snd DemoRun.loop_result)).
  vm_compute. reflexivity.
Defined.

(** telescope 1 was kept with size 200 *)
Lemma kept_telescopes_satisfy_cuts_witness :
  exists cam amp dcut,
    tel_type DemoRun.loop_dicts !! 1 = Some cam /\
    is_Some (tail_cut Demo.ready !! cam) /\
    amp_cut Demo.ready !! cam = Some amp /\
    dist_cut Demo.ready !! cam = Some dcut /\
    F64.gtb (Moments.size Partial.moments_of_one) (F64.of_Z amp) = true /\
    F64.ltb (centroid_dist Partial.moments_of_one) dcut = true /\
    F64.gtb (Moments.width Partial.moments_of_one) F64.zero = true.
Proof.
  apply (@kept_telescopes_satisfy_cuts Demo.demo_collaborators DemoRun.all_three
           Demo.ready DemoRun.loop_dicts (snd DemoRun.loop_result) 1
           Partial.moments_of_one); vm_compute; reflexivity.
Defined.

(** the registry after the event seen by three telescopes *)
Lemma registry_after_event_witness :
  let st' := snd (@reconstruct_event Demo.demo_collaborators DemoRun.all_three
                    Demo.ready) in
  (forall tel_id, tel_id ∈ tels_with_data DemoRun.all_three ->
     geoms st' !! tel_id =
     Some (match geoms Demo.ready !! tel_id with
           | Some g => g
           | None => Demo.demo_guess (fst (pixel_pos Demo.demo_inst tel_id))
                                     (snd (pixel_pos Demo.demo_inst tel_id))
                                     (optical_foclen Demo.demo_inst tel_id)
           end)) /\
  dom (geoms st') = dom (geoms Demo.ready) ∪ list_to_set (tels_with_data DemoRun.all_three).
Proof.
  apply (@registry_after_event Demo.demo_collaborators DemoRun.all_three Demo.ready).
  vm_compute. reflexivity.
Defined.


(** the same registry entry and tables, after rows and calls were added *)
Lemma preselect_reads_only_witness :
  let st' := set_calls [Print "later"] (set_rng 3 DemoRun.seen_one) in
  snd (preselect (Some DemoRun.bright) 1 DemoRun.seen_one) = DemoRun.seen_one /\
  fst (preselect (Some DemoRun.bright) 1 DemoRun.seen_one)
    = fst (preselect (Some DemoRun.bright) 1 st').
Proof.
  apply (preselect_reads_only (Some DemoRun.bright) 1 DemoRun.seen_one
           (set_calls [Print "later"] (set_rng 3 DemoRun.seen_one)));
    reflexivity.
Defined.

(** telescope 1 of the event seen by three telescopes: moments over the
    image [200, 0], saved image [200, 5] *)
Lemma kept_entries_are_as_saved_witness :
  exists geom tc mc m,
    geoms (snd DemoRun.loop_result) !! 1 = Some geom /\
    tail_cut Demo.ready !! cam_id geom = Some tc /\
    Demo.demo_hillas [F64.of_Z 0; F64.of_Z 1] [F64.of_Z 0; F64.of_Z 0]
      (mul_mask [F64.of_Z 200; F64.of_Z 5]
                (Demo.demo_clean geom [F64.of_Z 200; F64.of_Z 5] (snd tc) (fst tc)))
      = Ok mc /\
    hillas DemoRun.loop_dicts !! 1 = Some mc /\
    hillas_nom DemoRun.loop_dicts !! 1 = Some m /\
    image DemoRun.loop_dicts !! 1
      = Some (select [F64.of_Z 200; F64.of_Z 5]
                (Demo.demo_dilate geom (Demo.demo_dilate geom
                   (Demo.demo_clean geom [F64.of_Z 200; F64.of_Z 5] (snd tc) (fst tc))))) /\
    tel_type DemoRun.loop_dicts !! 1 = Some (cam_id geom).
Proof.
  destruct (@kept_entries_are_as_saved Demo.demo_collaborators DemoRun.all_three
              Demo.ready DemoRun.loop_dicts (snd DemoRun.loop_result) 1)
    as (geom&tc&mc&m&Hg&Htc&Hcam&_&Hh&Hn&Hi&_&_&_&Ht&_).
  - vm_compute. reflexivity.
  - apply elem_of_dom. eexists. vm_compute. reflexivity.
  - exists geom, tc, mc, m. repeat split; assumption.
Defined.

(** telescope 1 is first seen with two pixels; a later event gives it three
    pixels, and the registry keeps the geometry of the first *)
Lemma geometry_registry_write_once_witness :
  let st' := snd (@event_loop Demo.demo_collaborators
                    [DemoRun.all_three; Later.resized] Demo.ready) in
  geoms st' !! 1 = Some DemoRun.lst_geometry /\
  count (is_guess 1) (calls st') = 1%nat /\
  @guess Demo.demo_collaborators (fst (pixel_pos (inst Later.resized) 1))
    (snd (pixel_pos (inst Later.resized) 1)) (optical_foclen (inst Later.resized) 1)
    <> DemoRun.lst_geometry.
Proof.
  destruct (@geometry_registry_write_once Demo.demo_collaborators
              [DemoRun.all_three; Later.resized] Demo.ready)
    as (_&_&_&Hfirst&_).
  destruct (Hfirst [] DemoRun.all_three [Later.resized] 1) as [Hgeom Hcount].
  - reflexivity.
  - reflexivity.
  - intros e He. inversion He.
  - change (1 ∈ [1; 2; 3]). left.
  - vm_compute. reflexivity.
  - cbv zeta. split; [exact Hgeom|]. split; [exact Hcount|].
    vm_compute. discriminate.
Defined.
